(** * Databricks MCP server: a shallow embedding of [main.py]

    The class [DatabricksMCP] wraps a vendor workspace client.  Its methods
    either call a remote metadata endpoint and project a field, or build a
    SQL text and hand it to [execute_sql_query], which submits the statement
    and runs the status loop.

    The embedding keeps what the Python code has:
    - values are a tagged union: None, bool, int, str, and any other object,
      known by what [str] makes of it;
    - dictionaries are finite maps with string keys;
    - list objects that the code copies ([list(row)]) live in a store and are
      named by references, so that a copy is a new object;
    - the remote service and the clock are an environment that answers from
      the history of interactions; every interaction is appended to a trace;
    - exceptions are a result of the computation, threaded by a state and
      error monad; the [while] loop runs on fuel.

    A Python [str] is a string of 8-bit characters (its UTF-8 text).  Two
    things belong to the interpreter and are parameters of the code that
    uses them: [str.upper], and the limit on the digits of an int that [str]
    converts.  Clock readings are rationals. *)

From Stdlib Require Import ZArith QArith Ascii String DecimalString.
From Stdlib Require Import DecimalPos DecimalZ.
From stdpp Require Import base option list strings gmap.

Local Open Scope Z_scope.

(* ===================================================================== *)
(** ** Exceptions *)
(* ===================================================================== *)

Inductive exn : Type :=
  | Exception (msg : string)        (* raise Exception(msg) *)
  | KeyError (key : string)         (* d[key], key absent *)
  | IndexError                      (* row[i], i out of range *)
  | AttributeError (attr : string)  (* v.attr on a value without it *)
  | RemoteError (msg : string)      (* raised inside the workspace client *)
  | IntDigitsError (limit : nat).   (* ValueError: str(n), n of more digits
                                       than the limit *)

#[global] Instance exn_eq_dec : EqDecision exn.
Proof. solve_decision. Defined.

(* ===================================================================== *)
(** ** Python values and strings *)
(* ===================================================================== *)

(** The last case is an object of any other type (a float, a Decimal, a
    date, bytes, a list): the code asks of it whether it is a [str], which
    it is not, and its [str(...)], which is a text or an exception. *)
Inductive value : Type :=
  | VNone
  | VBool (b : bool)
  | VInt (n : Z)
  | VStr (s : string)
  | VObject (str_result : exn + string).

#[global] Instance value_eq_dec : EqDecision value.
Proof. solve_decision. Defined.

(** The decimal numeral of an int, with its sign. *)
Definition decimal (n : Z) : string := NilZero.string_of_int (Z.to_int n).

(** The number of decimal digits of an int, the sign apart. *)
Definition digits (n : Z) : nat :=
  match Z.to_int n with
  | Decimal.Pos d | Decimal.Neg d => Decimal.nb_digits d
  end.

(** CPython converts an int of up to 640 digits whatever the limit. *)
Definition int_max_str_digits_threshold : nat := 640.

(** [str(n)] refuses [n] under the limit [max_digits] (0: no limit). *)
Definition over_limit (max_digits : nat) (n : Z) : bool :=
  (0 <? max_digits)%nat && (int_max_str_digits_threshold <? digits n)%nat
  && (max_digits <? digits n)%nat.

(** [str(n)] for an int, under the limit [sys.get_int_max_str_digits()]. *)
Definition str_of_int (max_digits : nat) (n : Z) : exn + string :=
  if over_limit max_digits n then inl (IntDigitsError max_digits)
  else inr (decimal n).

(** [str(v)]; formatting a value in an f-string with an empty format
    specification gives the same text. *)
Definition py_str (max_digits : nat) (v : value) : exn + string :=
  match v with
  | VNone => inr "None"
  | VBool true => inr "True"
  | VBool false => inr "False"
  | VInt n => str_of_int max_digits n
  | VStr s => inr s
  | VObject str_result => str_result
  end.

(** [sep.join(xs)] *)
Fixpoint join (sep : string) (xs : list string) : string :=
  match xs with
  | [] => ""
  | [x] => x
  | x :: rest => x +:+ sep +:+ join sep rest
  end.

(** *** Upper case of ASCII text *)

Definition is_ascii_char (c : ascii) : bool := (nat_of_ascii c <? 128)%nat.

(** The letters a to z. *)
Definition is_lower_char (c : ascii) : bool :=
  (97 <=? nat_of_ascii c)%nat && (nat_of_ascii c <=? 122)%nat.

(** The text has only ASCII characters. *)
Fixpoint is_ascii (s : string) : bool :=
  match s with
  | EmptyString => true
  | String c rest => is_ascii_char c && is_ascii rest
  end.

(** The text has a letter a to z. *)
Fixpoint has_lower (s : string) : bool :=
  match s with
  | EmptyString => false
  | String c rest => is_lower_char c || has_lower rest
  end.

(** a to z become A to Z, every other character stays. *)
Definition ascii_upper_char (c : ascii) : ascii :=
  let n := nat_of_ascii c in
  if (97 <=? n)%nat && (n <=? 122)%nat then ascii_of_nat (n - 32) else c.

Fixpoint ascii_upper (s : string) : string :=
  match s with
  | EmptyString => EmptyString
  | String c rest => String (ascii_upper_char c) (ascii_upper rest)
  end.

(** What is known of [str.upper]: on a text of ASCII characters it is
    [ascii_upper].  On other texts it follows the Unicode tables. *)
Definition agrees_on_ascii (upper : string -> string) : Prop :=
  forall s, is_ascii s = true -> upper s = ascii_upper s.

(* ===================================================================== *)
(** ** The vendor SDK's data *)
(* ===================================================================== *)

(** Modelled from the spec: the state enumeration
    [databricks.sdk.service.sql.StatementState] of the vendor SDK, which
    the sources import and do not define.  The code names SUCCEEDED, FAILED
    and CANCELED; the specification speaks of pending and running states;
    CLOSED is the remaining member of the SDK's enumeration. *)
Inductive StatementState : Type :=
  | CANCELED | CLOSED | FAILED | PENDING | RUNNING | SUCCEEDED.

#[global] Instance StatementState_eq_dec : EqDecision StatementState.
Proof. solve_decision. Defined.

Definition StatementState_name (s : StatementState) : string :=
  match s with
  | CANCELED => "CANCELED"
  | CLOSED => "CLOSED"
  | FAILED => "FAILED"
  | PENDING => "PENDING"
  | RUNNING => "RUNNING"
  | SUCCEEDED => "SUCCEEDED"
  end.

(** [str(state)] as the f-string of the last branch prints it; the field is
    optional in the SDK. *)
Definition str_of_state (s : option StatementState) : string :=
  match s with
  | None => "None"
  | Some st => "StatementState." +:+ StatementState_name st
  end.

(** The response of [get_statement], over the representation [R] of a row
    of [result.data_array]: the row's contents in the remote reply, a
    reference once the SDK has built the Python objects. *)
Record ResultData (R : Type) : Type := mkResultData {
  data_array : option (list R)
}.
Arguments mkResultData {R} _.
Arguments data_array {R} _.

Record StatementResponse (R : Type) : Type := mkStatementResponse {
  state : option StatementState;
  result : option (ResultData R)
}.
Arguments mkStatementResponse {R} _ _.
Arguments state {R} _.
Arguments result {R} _.

(** The records of the metadata listings; the code reads their [name]. *)
Record CatalogInfo : Type := mkCatalogInfo {
  catalog_info_name : string;
  catalog_info_comment : option string
}.

Record SchemaInfo : Type := mkSchemaInfo {
  schema_info_name : string;
  schema_info_catalog_name : string
}.

Record TableInfo : Type := mkTableInfo {
  table_info_name : string;
  table_info_catalog_name : string;
  table_info_schema_name : string
}.

(** The attribute [.name], which the three listings read. *)
Class HasName (A : Type) : Type := name : A -> string.
#[global] Instance CatalogInfo_name : HasName CatalogInfo := catalog_info_name.
#[global] Instance SchemaInfo_name : HasName SchemaInfo := schema_info_name.
#[global] Instance TableInfo_name : HasName TableInfo := table_info_name.

(* ===================================================================== *)
(** ** The errors of [execute_sql_query] *)
(* ===================================================================== *)

(** The four errors of [execute_sql_query], by the names the specification
    gives them. *)
Definition ExecutionFailure : exn := Exception "SQL execution failed".
Definition ExecutionCanceled : exn := Exception "SQL execution was canceled".
Definition UnexpectedState (s : option StatementState) : exn :=
  Exception ("Unexpected statement state: " +:+ str_of_state s).
Definition Timeout : exn := Exception "SQL execution timed out".

(* ===================================================================== *)
(** ** The environment: remote service and clock *)
(* ===================================================================== *)

Inductive event : Type :=
  | EvExecuteStatement (warehouse_id statement : string)
  | EvGetStatement (statement_id : string)
  | EvTime
  | EvSleep (seconds : Q)
  | EvCatalogsList
  | EvSchemasList (catalog_name : string)
  | EvTablesList (catalog_name schema_name : string)
  | EvSchemasCreate (name catalog_name : string).

(** A remote call answers, or the client raises an error of its own. *)
Inductive reply (A : Type) : Type :=
  | Ok (a : A)
  | Fails (msg : string).
Arguments Ok {A} _.
Arguments Fails {A} _.

(** What the remote service answers, given everything that was asked
    before. *)
Record WorkspaceClient : Type := mkWorkspaceClient {
  statement_execution_execute_statement :
    list event -> string -> string -> reply string;
  statement_execution_get_statement :
    list event -> string -> reply (StatementResponse (list value));
  catalogs_list : list event -> reply (list CatalogInfo);
  schemas_list : list event -> string -> reply (list SchemaInfo);
  tables_list : list event -> string -> string -> reply (list TableInfo);
  schemas_create : list event -> string -> string -> reply unit
}.

(** [self] *)
Record DatabricksMCP : Type := mkDatabricksMCP {
  client : WorkspaceClient;
  warehouse_id : string
}.

(* ===================================================================== *)
(** ** Store, state and the monad *)
(* ===================================================================== *)

(** A reference to a list object; the store maps it to the list's
    contents.  Allocation takes the next free reference. *)
Definition ref : Type := nat.

Record World : Type := mkWorld {
  trace : list event;
  store : list (list value)
}.

Inductive outcome (A : Type) : Type :=
  | Return (a : A)
  | Raise (e : exn)
  | Stuck          (* a reference outside the store was read *)
  | OutOfFuel.     (* the loop was cut off *)
Arguments Return {A} _.
Arguments Raise {A} _.
Arguments Stuck {A}.
Arguments OutOfFuel {A}.

Definition M (A : Type) : Type := World -> outcome A * World.

Definition ret {A} (a : A) : M A := fun w => (Return a, w).

Definition bind {A B} (m : M A) (k : A -> M B) : M B := fun w =>
  match m w with
  | (Return a, w') => k a w'
  | (Raise e, w') => (Raise e, w')
  | (Stuck, w') => (Stuck, w')
  | (OutOfFuel, w') => (OutOfFuel, w')
  end.

Definition raise {A} (e : exn) : M A := fun w => (Raise e, w).

Notation "x <- c ;; k" := (bind c (fun x => k))
  (at level 100, c at next level, right associativity).

Definition emit (ev : event) : M unit := fun w =>
  (Return tt, mkWorld (trace w ++ [ev]) (store w)).

Definition history : M (list event) := fun w => (Return (trace w), w).

Definition of_reply {A} (r : reply A) : M A :=
  match r with
  | Ok a => ret a
  | Fails msg => raise (RemoteError msg)
  end.

(** A step that touches nothing: its result, or its exception. *)
Definition of_result {A} (r : exn + A) : M A :=
  match r with
  | inr a => ret a
  | inl e => raise e
  end.

(** A new list object with the given contents. *)
Definition alloc (contents : list value) : M ref := fun w =>
  (Return (length (store w)), mkWorld (trace w) (store w ++ [contents])).

Definition deref (r : ref) : M (list value) := fun w =>
  match store w !! r with
  | Some contents => (Return contents, w)
  | None => (Stuck, w)
  end.

(** [[f(x) for x in xs]], left to right. *)
Fixpoint for_each {A B} (f : A -> M B) (xs : list A) : M (list B) :=
  match xs with
  | [] => ret []
  | x :: rest => y <- f x ;; ys <- for_each f rest ;; ret (y :: ys)
  end.

(** What an execution of a loop body leaves to its loop. *)
Inductive flow (A : Type) : Type :=
  | Next              (* the body ran to its end *)
  | Returned (a : A). (* the body executed [return a] *)
Arguments Next {A}.
Arguments Returned {A} _.

(** [while cond: body]; the result is [Next] when the condition ended the
    loop. *)
Fixpoint while {A} (fuel : nat) (cond : M bool) (body : M (flow A)) : M (flow A) :=
  match fuel with
  | O => fun w => (OutOfFuel, w)
  | S fuel' =>
      c <- cond ;;
      if c : bool then
        r <- body ;;
        match r with
        | Next => while fuel' cond body
        | Returned a => ret (Returned a)
        end
      else ret Next
  end.

(* ===================================================================== *)
(** ** The calls the code makes on [time] and on [self.client] *)
(* ===================================================================== *)

Definition Qlt_bool (x y : Q) : bool := (Qnum x * QDen y <? Qnum y * QDen x)%Z.

Section Process.

(** The clock of the process: the reading [time.time()] gives, from what
    happened before. *)
Variable time_time : list event -> Q.

(** [str.upper] of the interpreter. *)
Variable upper : string -> string.

(** [sys.get_int_max_str_digits()] of the interpreter: 0, or the limit on
    the digits of an int that [str] converts. *)
Variable int_max_str_digits : nat.

(** [time.time()] *)
Definition time_now : M Q :=
  h <- history ;;
  _ <- emit EvTime ;;
  ret (time_time h).

(** [time.sleep(seconds)]; the module is imported, this function is never
    called. *)
Definition time_sleep (seconds : Q) : M unit := emit (EvSleep seconds).

(** The SDK turns the rows of a reply into list objects. *)
Definition build_response (r : StatementResponse (list value))
  : M (StatementResponse ref) :=
  match result r with
  | None => ret (mkStatementResponse (state r) None)
  | Some rd =>
      match data_array rd with
      | None => ret (mkStatementResponse (state r) (Some (mkResultData None)))
      | Some rows =>
          refs <- for_each alloc rows ;;
          ret (mkStatementResponse (state r) (Some (mkResultData (Some refs))))
      end
  end.

(** [self.client.statement_execution.execute_statement(warehouse_id=...,
    statement=sql).statement_id] *)
Definition execute_statement (self : DatabricksMCP) (sql : string) : M string :=
  h <- history ;;
  _ <- emit (EvExecuteStatement (warehouse_id self) sql) ;;
  of_reply (statement_execution_execute_statement (client self) h (warehouse_id self) sql).

(** [self.client.statement_execution.get_statement(statement_id)] *)
Definition get_statement (self : DatabricksMCP) (statement_id : string)
  : M (StatementResponse ref) :=
  h <- history ;;
  _ <- emit (EvGetStatement statement_id) ;;
  r <- of_reply (statement_execution_get_statement (client self) h statement_id) ;;
  build_response r.

(** [list(row)] *)
Definition py_list (row : ref) : M ref :=
  contents <- deref row ;;
  alloc contents.

(* ===================================================================== *)
(** ** [DatabricksMCP.execute_sql_query] *)
(* ===================================================================== *)

Definition timeout : Q := 60.
Definition interval : Q := 5.

(** The body of the [while] loop (lines 32 to 45). *)
Definition poll_body (self : DatabricksMCP) (statement_id : string)
  : M (flow (list ref)) :=
  status_response <- get_statement self statement_id ;;
  let state := state status_response in
  if decide (state = Some SUCCEEDED) then
    match result status_response with
    | Some res =>
        match data_array res with
        | Some ((_ :: _) as rows) =>
            copies <- for_each py_list rows ;;
            ret (Returned copies)
        | _ => ret (Returned [])
        end
    | None => ret (Returned [])
    end
  else if decide (state = Some FAILED) then
    raise ExecutionFailure
  else if decide (state = Some CANCELED) then
    raise ExecutionCanceled
  else
    raise (UnexpectedState state).

Definition execute_sql_query (self : DatabricksMCP) (fuel : nat) (sql : string)
  : M (list ref) :=
  statement_id <- execute_statement self sql ;;
  start_time <- time_now ;;
  r <- while fuel
         (now <- time_now ;; ret (Qlt_bool (now - start_time) timeout))
         (poll_body self statement_id) ;;
  match r with
  | Returned rows => ret rows
  | Next => raise Timeout
  end.

(* ===================================================================== *)
(** ** Metadata listings *)
(* ===================================================================== *)

Definition list_catalogs (self : DatabricksMCP) : M (list string) :=
  h <- history ;;
  _ <- emit EvCatalogsList ;;
  catalogs <- of_reply (catalogs_list (client self) h) ;;
  ret (map name catalogs).

Definition list_schemas (self : DatabricksMCP) (catalog : string) : M (list string) :=
  h <- history ;;
  _ <- emit (EvSchemasList catalog) ;;
  schemas <- of_reply (schemas_list (client self) h catalog) ;;
  ret (map name schemas).

Definition list_tables (self : DatabricksMCP) (catalog schema : string)
  : M (list string) :=
  h <- history ;;
  _ <- emit (EvTablesList catalog schema) ;;
  tables <- of_reply (tables_list (client self) h catalog schema) ;;
  ret (map name tables).

(* ===================================================================== *)
(** ** [describe_table] *)
(* ===================================================================== *)

(** [row[i]] for an index [i >= 0] *)
Definition getitem (row : list value) (i : nat) : M value :=
  match row !! i with
  | Some v => ret v
  | None => raise IndexError
  end.

(** [v.upper()] for an element of a data array: a text has the method;
    what else the array can hold (a null, a number, a nested array) has
    not. *)
Definition str_upper (v : value) : M value :=
  match v with
  | VStr s => ret (VStr (upper s))
  | _ => raise (AttributeError "upper")
  end.

Definition describe_table (self : DatabricksMCP) (fuel : nat)
    (catalog schema table : string) : M (gmap string (list value)) :=
  let table_full_name := catalog +:+ "." +:+ schema +:+ "." +:+ table in
  let sql := "DESCRIBE TABLE " +:+ table_full_name in
  result <- execute_sql_query self fuel sql ;;
  columns <- for_each (fun r => row <- deref r ;; getitem row 0) result ;;
  data_types <-
    for_each (fun r => row <- deref r ;; v <- getitem row 1 ;; str_upper v) result ;;
  ret (<["data_types" := data_types]> (<["columns" := columns]> ∅)).

(* ===================================================================== *)
(** ** [create_schema], [create_table], [insert_data] *)
(* ===================================================================== *)

Definition create_schema (self : DatabricksMCP) (catalog schema : string) : M unit :=
  h <- history ;;
  _ <- emit (EvSchemasCreate schema catalog) ;;
  of_reply (schemas_create (client self) h schema catalog).

(** [d[key]] *)
Definition dict_getitem (d : gmap string value) (key : string) : M value :=
  match d !! key with
  | Some v => ret v
  | None => raise (KeyError key)
  end.

Definition create_table (self : DatabricksMCP) (fuel : nat)
    (catalog schema table : string) (columns : list (gmap string value)) : M unit :=
  let table_full_name := catalog +:+ "." +:+ schema +:+ "." +:+ table in
  column_defs <-
    for_each (fun col =>
                n <- dict_getitem col "name" ;;
                n_text <- of_result (py_str int_max_str_digits n) ;;
                t <- dict_getitem col "type" ;;
                t_text <- of_result (py_str int_max_str_digits t) ;;
                ret (n_text +:+ " " +:+ t_text)) columns ;;
  let sql :=
    "CREATE TABLE " +:+ table_full_name +:+ " (" +:+ join ", " column_defs +:+ ")" in
  _ <- execute_sql_query self fuel sql ;;
  ret tt.

(** [isinstance(val, str)] *)
Definition is_str (val : value) : bool :=
  match val with
  | VStr _ => true
  | _ => false
  end.

Definition format_value (val : value) : M string :=
  if is_str val then
    text <- of_result (py_str int_max_str_digits val) ;;
    ret ("'" +:+ text +:+ "'")
  else of_result (py_str int_max_str_digits val).

Definition insert_data (self : DatabricksMCP) (fuel : nat)
    (table_full_name : string) (values : list (list value)) : M unit :=
  groups <-
    for_each (fun row =>
                texts <- for_each format_value row ;;
                ret ("(" +:+ join ", " texts +:+ ")")) values ;;
  let values_str := join ", " groups in
  let sql := "INSERT INTO " +:+ table_full_name +:+ " VALUES " +:+ values_str in
  _ <- execute_sql_query self fuel sql ;;
  ret tt.

End Process.

(* ===================================================================== *)
(** ** What a run of [execute_sql_query] meets *)
(* ===================================================================== *)

Section Observations.

Variable time_time : list event -> Q.
Variable self : DatabricksMCP.
Variable sql : string.
Variable w : World.

(** The submission is accepted under the identifier [statement_id]. *)
Definition submitted (statement_id : string) : Prop :=
  statement_execution_execute_statement
    (client self) (trace w) (warehouse_id self) sql = Ok statement_id.

Definition submit_event : event := EvExecuteStatement (warehouse_id self) sql.

(** The reading of [start_time] and the reading of the first loop test. *)
Definition start_reading : Q := time_time (trace w ++ [submit_event]).
Definition first_test_reading : Q := time_time (trace w ++ [submit_event; EvTime]).

(** The first loop test finds the call inside the timeout window. *)
Definition in_window : Prop :=
  (first_test_reading - start_reading < timeout)%Q.

(** The first status request is answered by [resp]. *)
Definition first_status (statement_id : string)
    (resp : StatementResponse (list value)) : Prop :=
  statement_execution_get_statement (client self)
    (trace w ++ [submit_event; EvTime; EvTime]) statement_id = Ok resp.

(** The trace after one pass through the loop body. *)
Definition one_poll_trace (statement_id : string) : list event :=
  trace w ++ [submit_event; EvTime; EvTime; EvGetStatement statement_id].

End Observations.

(** The rows of a reply's data array; none when the result or the array is
    absent. *)
Definition payload (resp : StatementResponse (list value)) : list (list value) :=
  match result resp with
  | Some rd =>
      match data_array rd with
      | Some rows => rows
      | None => []
      end
  | None => []
  end.

(** The reply carries a result with a data array of at least one row: the
    test [status_response.result and status_response.result.data_array]. *)
Definition populated (resp : StatementResponse (list value)) : Prop :=
  exists rd row rows,
    result resp = Some rd /\ data_array rd = Some (row :: rows).

(** The references the SDK gives to the rows of a reply that arrives when
    the store is [st]. *)
Definition response_rows (st : list (list value)) (resp : StatementResponse (list value))
  : list ref :=
  seq (length st) (length (payload resp)).

(** The response object the SDK builds from that reply. *)
Definition response_object (st : list (list value))
    (resp : StatementResponse (list value)) : StatementResponse ref :=
  mkStatementResponse (state resp)
    (match result resp with
     | Some rd =>
         Some (mkResultData
                 (match data_array rd with
                  | Some rows => Some (seq (length st) (length rows))
                  | None => None
                  end))
     | None => None
     end).

(** Every reference of [refs] names, in order, the row of [rows]. *)
Definition holds (st : list (list value)) (refs : list ref) (rows : list (list value))
  : Prop :=
  Forall2 (fun r row => st !! r = Some row) refs rows.

Definition is_poll (ev : event) : bool :=
  match ev with
  | EvGetStatement _ => true
  | _ => false
  end.

Definition is_sleep (ev : event) : bool :=
  match ev with
  | EvSleep _ => true
  | _ => false
  end.

(** Number of status requests in a trace. *)
Definition polls (h : list event) : nat := length (List.filter is_poll h).

(** Number of delays in a trace. *)
Definition sleeps (h : list event) : nat := length (List.filter is_sleep h).

Definition outcome_map {A B} (f : A -> B) (o : outcome A) : outcome B :=
  match o with
  | Return a => Return (f a)
  | Raise e => Raise e
  | Stuck => Stuck
  | OutOfFuel => OutOfFuel
  end.

(* ===================================================================== *)
(** ** The SQL texts, as the specification words them *)
(* ===================================================================== *)

(** [x, y1, y2, ...]: the first item, then every further item behind a
    comma and a space. *)
Definition comma_space_list (x : string) (rest : list string) : string :=
  x +:+ fold_right (fun y acc => ", " +:+ y +:+ acc) "" rest.

(** A column definition: name, one space, type. *)
Definition rendered_definition (d : string * string) : string :=
  d.1 +:+ " " +:+ d.2.

Definition column_list (d : string * string) (ds : list (string * string)) : string :=
  comma_space_list (rendered_definition d) (map rendered_definition ds).

(** The dictionary [col] is the column definition [d]. *)
Definition column_definition (col : gmap string value) (d : string * string) : Prop :=
  col !! "name" = Some (VStr d.1) /\ col !! "type" = Some (VStr d.2).

(** The exception [str] raises on a value, if any: an int of more digits
    than the limit, an object whose [str] raises. *)
Definition str_error (max_digits : nat) (v : value) : option exn :=
  match v with
  | VInt n => if over_limit max_digits n then Some (IntDigitsError max_digits) else None
  | VObject (inl e) => Some e
  | _ => None
  end.

(** A value as a literal: a string between single quotes, as it is; any
    other value as [str] prints it (nothing, for a value it does not
    print). *)
Definition literal (v : value) : string :=
  match v with
  | VStr s => "'" +:+ s +:+ "'"
  | VNone => "None"
  | VBool true => "True"
  | VBool false => "False"
  | VInt n => decimal n
  | VObject (inr text) => text
  | VObject (inl _) => ""
  end.

Definition row_group (row : list value) : string :=
  "(" +:+ match row with
          | [] => ""
          | v :: vs => comma_space_list (literal v) (map literal vs)
          end +:+ ")".

Definition values_list (row : list value) (rows : list (list value)) : string :=
  comma_space_list (row_group row) (map row_group rows).

(* ===================================================================== *)
(** ** A scripted service, for the examples *)
(* ===================================================================== *)

Module Scenario.

(** One second passes at every interaction. *)
Definition steady_clock : list event -> Q :=
  fun h => inject_Z (Z.of_nat (length h)).

(** The clock jumps by two minutes at every interaction. *)
Definition slow_clock : list event -> Q :=
  fun h => inject_Z (120 * Z.of_nat (length h)).

(** A service that accepts every statement as ["stmt-1"] and answers every
    status request with [resp]. *)
Definition scripted (resp : StatementResponse (list value)) : WorkspaceClient :=
  mkWorkspaceClient
    (fun _ _ _ => Ok "stmt-1")
    (fun _ _ => Ok resp)
    (fun _ => Ok [mkCatalogInfo "main" None; mkCatalogInfo "hive_metastore" (Some "legacy")])
    (fun _ c => Ok [mkSchemaInfo "default" c; mkSchemaInfo "test_schema" c])
    (fun _ c s => Ok [mkTableInfo "test_table" c s])
    (fun _ _ _ => Ok tt).

Definition databricks (resp : StatementResponse (list value)) : DatabricksMCP :=
  mkDatabricksMCP (scripted resp) "wh-1".

Definition w0 : World := mkWorld [] [].

Definition select_reply : StatementResponse (list value) :=
  mkStatementResponse (Some SUCCEEDED)
    (Some (mkResultData (Some [[VStr "1"; VStr "Alice"]; [VStr "2"; VStr "Bob"]]))).

Definition ddl_reply : StatementResponse (list value) :=
  mkStatementResponse (Some SUCCEEDED) None.

Definition describe_reply : StatementResponse (list value) :=
  mkStatementResponse (Some SUCCEEDED)
    (Some (mkResultData (Some [[VStr "id"; VStr "int"; VNone];
                               [VStr "name"; VStr "string"; VNone]]))).

Definition describe_sql : string := "DESCRIBE TABLE main.test_schema.test_table".

(** The world a successful [DESCRIBE TABLE] leaves: the rows of the
    response, then their copies. *)
Definition described : World :=
  mkWorld [EvExecuteStatement "wh-1" describe_sql; EvTime; EvTime;
           EvGetStatement "stmt-1"]
          (payload describe_reply ++ payload describe_reply).

(** The column definitions of the test table. *)
Definition test_columns : list (gmap string value) :=
  [ <["type" := VStr "INT"]> (<["name" := VStr "id"]> ∅);
    <["type" := VStr "STRING"]> (<["name" := VStr "name"]> ∅) ].

(** A service whose metadata listings fail. *)
Definition unreachable : WorkspaceClient :=
  mkWorkspaceClient
    (fun _ _ _ => Fails "connection refused")
    (fun _ _ => Fails "connection refused")
    (fun _ => Fails "connection refused")
    (fun _ _ => Fails "connection refused")
    (fun _ _ _ => Fails "connection refused")
    (fun _ _ _ => Fails "connection refused").

Definition failed_reply : StatementResponse (list value) :=
  mkStatementResponse (Some FAILED) None.

Definition pending_reply : StatementResponse (list value) :=
  mkStatementResponse (Some PENDING) None.

End Scenario.

(* ===================================================================== *)
(** ** The start of the module: configuration from the environment *)
(* ===================================================================== *)

(** How the module body ends: with the global [databricks], or with the
    [ValueError] of line 120. *)
Inductive startup : Type :=
  | Started (databricks : DatabricksMCP)
  | ValueError (msg : string).

(** Truth value of what [os.getenv] gives: [None] and the empty string are
    false. *)
Definition truthy (o : option string) : bool :=
  match o with
  | Some (String _ _) => true
  | _ => false
  end.

(** [all(xs)] *)
Definition py_all (xs : list bool) : bool := forallb id xs.

(** The string of a variable that the test of line 119 found set. *)
Definition the_str (o : option string) : string := default "" o.

Section Startup.

(** [WorkspaceClient(host=..., token=...)] *)
Variable WorkspaceClient_new : string -> string -> WorkspaceClient.

(** [DatabricksMCP.__init__] *)
Definition DatabricksMCP_init (host token warehouse_id : string) : DatabricksMCP :=
  mkDatabricksMCP (WorkspaceClient_new host token) warehouse_id.

(** Lines 115 to 122, over the environment of the process. *)
Definition main_module (environ : gmap string string) : startup :=
  let host := environ !! "DATABRICKS_HOST" in
  let token := environ !! "DATABRICKS_TOKEN" in
  let warehouse_id := environ !! "DATABRICKS_WAREHOUSE_ID" in
  if negb (py_all [truthy host; truthy token; truthy warehouse_id]) then
    ValueError "Missing required environment variables: DATABRICKS_HOST, DATABRICKS_TOKEN, DATABRICKS_WAREHOUSE_ID"
  else
    Started (DatabricksMCP_init (the_str host) (the_str token) (the_str warehouse_id)).

End Startup.

(* ===================================================================== *)
(** ** More to observe in a trace *)
(* ===================================================================== *)

Definition is_submission (ev : event) : bool :=
  match ev with
  | EvExecuteStatement _ _ => true
  | _ => false
  end.

Definition is_clock_read (ev : event) : bool :=
  match ev with
  | EvTime => true
  | _ => false
  end.

(** Number of statements submitted in a trace. *)
Definition submissions (h : list event) : nat := length (List.filter is_submission h).

(** Number of clock readings in a trace. *)
Definition clock_reads (h : list event) : nat := length (List.filter is_clock_read h).

(* ===================================================================== *)
(** ** The two comprehensions of [describe_table], on the rows *)
(* ===================================================================== *)

(** [row[0]] *)
Definition element0 (row : list value) : exn + value :=
  match row !! 0%nat with
  | Some v => inr v
  | None => inl IndexError
  end.

Section Description.

(** [str.upper] of the interpreter. *)
Variable upper : string -> string.

(** [row[1].upper()] *)
Definition upper_element1 (row : list value) : exn + value :=
  match row !! 1%nat with
  | Some (VStr s) => inr (VStr (upper s))
  | Some _ => inl (AttributeError "upper")
  | None => inl IndexError
  end.

(** A comprehension over [xs]: the first error, or every result. *)
Fixpoint comprehension {A B} (f : A -> exn + B) (xs : list A) : exn + list B :=
  match xs with
  | [] => inr []
  | x :: rest =>
      match f x with
      | inl e => inl e
      | inr y =>
          match comprehension f rest with
          | inl e => inl e
          | inr ys => inr (y :: ys)
          end
      end
  end.

(** Lines 83 to 86 on the rows the query returned. *)
Definition description (rows : list (list value)) : exn + gmap string (list value) :=
  match comprehension element0 rows with
  | inl e => inl e
  | inr columns =>
      match comprehension upper_element1 rows with
      | inl e => inl e
      | inr data_types =>
          inr (<["data_types" := data_types]> (<["columns" := columns]> ∅))
      end
  end.

End Description.

Definition outcome_of {A} (r : exn + A) : outcome A :=
  match r with
  | inl e => Raise e
  | inr a => Return a
  end.

(** The row has a string at index 1. *)
Definition typed_row (row : list value) : Prop :=
  exists s, row !! 1%nat = Some (VStr s).

(** [str] prints the value: it raises nothing on it. *)
Definition printable (max_digits : nat) (v : value) : Prop :=
  str_error max_digits v = None.

(** The dictionary has a name and a type that [str] prints. *)
Definition complete_column (max_digits : nat) (col : gmap string value) : Prop :=
  exists n t, col !! "name" = Some n /\ col !! "type" = Some t /\
              printable max_digits n /\ printable max_digits t.

(** The key that line 95 misses in [col], if any: ["name"] is read first. *)
Definition missing_key (col : gmap string value) : option string :=
  match col !! "name" with
  | None => Some "name"
  | Some _ =>
      match col !! "type" with
      | None => Some "type"
      | Some _ => None
      end
  end.

(* ===================================================================== *)
(** ** More scripted services *)
(* ===================================================================== *)

Module Faults.

(** A service that accepts every statement and fails every status
    request. *)
Definition flaky : WorkspaceClient :=
  mkWorkspaceClient
    (fun _ _ _ => Ok "stmt-1")
    (fun _ _ => Fails "503 Service Unavailable")
    (fun _ => Ok [])
    (fun _ _ => Ok [])
    (fun _ _ _ => Ok [])
    (fun _ _ _ => Fails "SCHEMA_ALREADY_EXISTS").

(** A description with a row of one element. *)
Definition short_row_reply : StatementResponse (list value) :=
  mkStatementResponse (Some SUCCEEDED)
    (Some (mkResultData (Some [[VStr "id"; VStr "int"]; []; [VStr "name"]]))).

(** A description whose second row has no type. *)
Definition null_type_reply : StatementResponse (list value) :=
  mkStatementResponse (Some SUCCEEDED)
    (Some (mkResultData (Some [[VStr "id"; VStr "int"]; [VStr "# Partitioning"; VNone]]))).

(** A column definition without a type, after a complete one. *)
Definition columns_without_type : list (gmap string value) :=
  [ <["type" := VStr "INT"]> (<["name" := VStr "id"]> ∅);
    <["name" := VStr "name"]> ∅ ].

(** An int of 4301 digits. *)
Definition huge : Z := 10 ^ 4300.

Definition environ : gmap string string :=
  <["DATABRICKS_WAREHOUSE_ID" := "wh-1"]>
    (<["DATABRICKS_TOKEN" := "dapi-secret"]>
       (<["DATABRICKS_HOST" := "https://example.cloud.databricks.com"]> ∅)).

End Faults.

(* ===================================================================== *)
(** * Properties *)
(* ===================================================================== *)

(** ** Strings, the clock test, the four errors *)

Lemma Qlt_bool_iff (x y : Q) : Qlt_bool x y = true <-> (x < y)%Q.
Proof. unfold Qlt_bool, Qlt. apply Z.ltb_lt. Qed.

Lemma errors_distinct (s : option StatementState) :
  ExecutionFailure <> ExecutionCanceled /\ ExecutionFailure <> Timeout /\
  ExecutionCanceled <> Timeout /\ UnexpectedState s <> ExecutionFailure /\
  UnexpectedState s <> ExecutionCanceled /\ UnexpectedState s <> Timeout.
Proof. repeat split; destruct s as [[]|]; discriminate. Qed.

(** ** The store *)

Lemma world_eta (w : World) : mkWorld (trace w) (store w) = w.
Proof. by destruct w. Qed.

Lemma for_each_alloc (rows : list (list value)) (w : World) :
  for_each alloc rows w =
  (Return (seq (length (store w)) (length rows)),
   mkWorld (trace w) (store w ++ rows)).
Proof.
  revert w. induction rows as [|row rows IH]; intros w; simpl.
  - by rewrite app_nil_r, world_eta.
  - unfold bind at 1. unfold alloc at 1. unfold bind at 1.
    rewrite IH. simpl. rewrite length_app, <- app_assoc. simpl.
    by rewrite Nat.add_1_r.
Qed.

Lemma holds_app (st extra : list (list value)) refs rows :
  holds st refs rows -> holds (st ++ extra) refs rows.
Proof.
  unfold holds. intros H. eapply Forall2_impl; [exact H|].
  intros r row Hr. by apply lookup_app_l_Some.
Qed.

Lemma holds_seq (st rows tail : list (list value)) :
  holds (st ++ rows ++ tail) (seq (length st) (length rows)) rows.
Proof.
  unfold holds. revert st. induction rows as [|row rows IH]; intros st; simpl.
  - constructor.
  - constructor.
    + by rewrite list_lookup_middle.
    + specialize (IH (st ++ [row])).
      rewrite length_app, Nat.add_1_r, <- app_assoc in IH. exact IH.
Qed.

Lemma for_each_py_list (refs : list ref) (rows : list (list value)) (w : World) :
  holds (store w) refs rows ->
  for_each py_list refs w =
  (Return (seq (length (store w)) (length rows)),
   mkWorld (trace w) (store w ++ rows)).
Proof.
  revert rows w. induction refs as [|r refs IH]; intros rows w H;
    inversion H as [|? row ? rows' Hr Hrest]; subst; simpl.
  - by rewrite app_nil_r, world_eta.
  - unfold bind at 1. unfold py_list at 1. unfold bind at 1. unfold deref at 1.
    rewrite Hr. unfold alloc at 1. unfold bind at 1.
    rewrite (IH rows'); simpl.
    + rewrite length_app, <- app_assoc. simpl. by rewrite Nat.add_1_r.
    + by apply holds_app.
Qed.

(** ** One run of [execute_sql_query], in closed form *)

Lemma get_statement_run (self : DatabricksMCP) (sid : string) (w : World) :
  get_statement self sid w =
  match statement_execution_get_statement (client self) (trace w) sid with
  | Fails msg =>
      (Raise (RemoteError msg), mkWorld (trace w ++ [EvGetStatement sid]) (store w))
  | Ok resp =>
      (Return (response_object (store w) resp),
       mkWorld (trace w ++ [EvGetStatement sid]) (store w ++ payload resp))
  end.
Proof.
  unfold get_statement, bind, history, emit, of_reply; simpl.
  destruct (statement_execution_get_statement _ _ _) as [resp|msg]; [|done].
  unfold ret, build_response, response_object, payload.
  destruct (result resp) as [rd|]; simpl; [|by rewrite app_nil_r].
  destruct (data_array rd) as [rows|]; simpl; [|by rewrite app_nil_r].
  unfold bind. by rewrite for_each_alloc.
Qed.

Lemma poll_body_run (self : DatabricksMCP) (sid : string) (w : World) :
  poll_body self sid w =
  match statement_execution_get_statement (client self) (trace w) sid with
  | Fails msg =>
      (Raise (RemoteError msg), mkWorld (trace w ++ [EvGetStatement sid]) (store w))
  | Ok resp =>
      let h := trace w ++ [EvGetStatement sid] in
      let w1 := mkWorld h (store w ++ payload resp) in
      match state resp with
      | Some SUCCEEDED =>
          (Return (Returned (seq (length (store w ++ payload resp))
                                 (length (payload resp)))),
           mkWorld h (store w ++ payload resp ++ payload resp))
      | Some FAILED => (Raise ExecutionFailure, w1)
      | Some CANCELED => (Raise ExecutionCanceled, w1)
      | other => (Raise (UnexpectedState other), w1)
      end
  end.
Proof.
  unfold poll_body, bind at 1. rewrite get_statement_run.
  destruct (statement_execution_get_statement _ _ _) as [resp|msg]; [|done].
  cbv zeta.
  assert (Hst : state (response_object (store w) resp) = state resp)
    by (unfold response_object; by repeat case_match).
  rewrite Hst.
  destruct (state resp) as [[]|]; repeat (case_decide; try done).
  clear. unfold response_object, payload.
  destruct (result resp) as [rd|]; simpl; [|by rewrite !app_nil_r].
  destruct (data_array rd) as [[|row rows]|]; try (simpl; by rewrite !app_nil_r).
  cbn [data_array result].
  pose proof (for_each_py_list
                (seq (length (store w)) (length (row :: rows))) (row :: rows)
                (mkWorld (trace w ++ [EvGetStatement sid]) (store w ++ row :: rows)))
    as Hcopy.
  cbn [length seq store trace] in Hcopy |- *. unfold bind.
  rewrite Hcopy; [by rewrite <- app_assoc|].
  pose proof (holds_seq (store w) (row :: rows) []) as Hrows.
  by rewrite app_nil_r in Hrows.
Qed.

Section Run.

Variable time_time : list event -> Q.
Variable self : DatabricksMCP.
Variable sql : string.
Variable w : World.

(** Every case of a call, for any positive amount of fuel. *)
Lemma execute_sql_query_run (fuel : nat) :
  execute_sql_query time_time self (S fuel) sql w =
  match statement_execution_execute_statement
          (client self) (trace w) (warehouse_id self) sql with
  | Fails msg =>
      (Raise (RemoteError msg), mkWorld (trace w ++ [submit_event self sql]) (store w))
  | Ok sid =>
      if Qlt_bool (first_test_reading time_time self sql w
                   - start_reading time_time self sql w) timeout
      then
        match statement_execution_get_statement (client self)
                (trace w ++ [submit_event self sql; EvTime; EvTime]) sid with
        | Fails msg =>
            (Raise (RemoteError msg), mkWorld (one_poll_trace self sql w sid) (store w))
        | Ok resp =>
            let w1 := mkWorld (one_poll_trace self sql w sid)
                              (store w ++ payload resp) in
            match state resp with
            | Some SUCCEEDED =>
                (Return (seq (length (store w ++ payload resp))
                             (length (payload resp))),
                 mkWorld (one_poll_trace self sql w sid)
                         (store w ++ payload resp ++ payload resp))
            | Some FAILED => (Raise ExecutionFailure, w1)
            | Some CANCELED => (Raise ExecutionCanceled, w1)
            | other => (Raise (UnexpectedState other), w1)
            end
        end
      else
        (Raise Timeout, mkWorld (trace w ++ [submit_event self sql; EvTime; EvTime]) (store w))
  end.
Proof.
  unfold execute_sql_query, bind at 1.
  unfold execute_statement, bind at 1, history, bind at 1, emit, of_reply.
  cbn [trace store]. fold (submit_event self sql).
  destruct (statement_execution_execute_statement _ _ _ _) as [sid|msg]; [|done].
  unfold ret at 1, bind at 1, time_now at 1, bind at 1, history, bind at 1, emit.
  cbn [trace store]. unfold ret at 1, bind at 1.
  cbn [while]. unfold bind at 1, bind at 1, time_now at 1, bind at 1, history,
    bind at 1, emit.
  cbn [trace store]. unfold ret at 1, ret at 1.
  unfold first_test_reading, start_reading, one_poll_trace.
  rewrite <- !app_assoc. cbn [app].
  destruct (Qlt_bool _ _); [|done].
  unfold bind at 1. rewrite poll_body_run. cbn [trace store].
  rewrite <- !app_assoc. cbn [app].
  destruct (statement_execution_get_statement _ _ _) as [resp|msg]; [|done].
  cbv zeta. by destruct (state resp) as [[]|].
Qed.

End Run.

(** ** Counting in traces *)

Lemma polls_app (h l : list event) : polls (h ++ l) = (polls h + polls l)%nat.
Proof. unfold polls. by rewrite List.filter_app, length_app. Qed.

Lemma sleeps_app (h l : list event) : sleeps (h ++ l) = (sleeps h + sleeps l)%nat.
Proof. unfold sleeps. by rewrite List.filter_app, length_app. Qed.

Lemma polls_one_poll_trace self sql w sid :
  polls (one_poll_trace self sql w sid) = S (polls (trace w)).
Proof. unfold one_poll_trace. rewrite polls_app. cbn. lia. Qed.

Lemma sleeps_one_poll_trace self sql w sid :
  sleeps (one_poll_trace self sql w sid) = sleeps (trace w).
Proof. unfold one_poll_trace. rewrite sleeps_app. cbn. lia. Qed.

(** ** The status loop *)

Section StatusLoop.

Variable time_time : list event -> Q.
Variable self : DatabricksMCP.
Variable sql : string.
Variable w : World.
Variable sid : string.

Hypothesis Hsubmitted : submitted self sql w sid.
Hypothesis Hwindow : in_window time_time self sql w.

(** The run once the submission is accepted and the first test passes. *)
Lemma run_in_window (fuel : nat) :
  execute_sql_query time_time self (S fuel) sql w =
  match statement_execution_get_statement (client self)
          (trace w ++ [submit_event self sql; EvTime; EvTime]) sid with
  | Fails msg =>
      (Raise (RemoteError msg), mkWorld (one_poll_trace self sql w sid) (store w))
  | Ok resp =>
      let w1 := mkWorld (one_poll_trace self sql w sid) (store w ++ payload resp) in
      match state resp with
      | Some SUCCEEDED =>
          (Return (seq (length (store w ++ payload resp)) (length (payload resp))),
           mkWorld (one_poll_trace self sql w sid)
                   (store w ++ payload resp ++ payload resp))
      | Some FAILED => (Raise ExecutionFailure, w1)
      | Some CANCELED => (Raise ExecutionCanceled, w1)
      | other => (Raise (UnexpectedState other), w1)
      end
  end.
Proof.
  rewrite execute_sql_query_run. unfold submitted in Hsubmitted.
  rewrite Hsubmitted. apply Qlt_bool_iff in Hwindow. by rewrite Hwindow.
Qed.

End StatusLoop.

Lemma not_populated_payload (resp : StatementResponse (list value)) :
  ~ populated resp -> payload resp = [].
Proof.
  unfold populated, payload. intros Hnot.
  destruct (result resp) as [rd|] eqn:Hres; [|done].
  destruct (data_array rd) as [[|row rows]|] eqn:Hdata; try done.
  destruct Hnot. eauto.
Qed.

(** C1. When the first status seen is SUCCEEDED the call returns one row
    per entry of the reply's data array, in the same order and with the same
    contents; the rows are new list objects, different from each other,
    from the objects of the response and from every object that existed
    before the call.  With no result, no data array or an empty one, the
    call returns the empty sequence and raises nothing. *)
Theorem C1_succeeded_returns_copied_rows
    (time_time : list event -> Q) (self : DatabricksMCP) (fuel : nat)
    (sql : string) (w : World) (sid : string)
    (resp : StatementResponse (list value)) :
  submitted self sql w sid ->
  in_window time_time self sql w ->
  first_status self sql w sid resp ->
  state resp = Some SUCCEEDED ->
  exists (copies : list ref) (w' : World),
    execute_sql_query time_time self (S fuel) sql w = (Return copies, w') /\
    holds (store w') copies (payload resp) /\
    holds (store w') (response_rows (store w) resp) (payload resp) /\
    NoDup copies /\
    (forall r, r ∈ copies ->
               (r ∉ response_rows (store w) resp) /\ store w !! r = None) /\
    (~ populated resp -> copies = []).
Proof.
  intros Hsub Hwin Hfirst Hstate.
  eexists _, _. split.
  { rewrite (run_in_window _ _ _ _ _ Hsub Hwin). unfold first_status in Hfirst.
    rewrite Hfirst. cbv zeta. rewrite Hstate. reflexivity. }
  cbn [store]. split; [|split; [|split; [|split]]].
  - pose proof (holds_seq (store w ++ payload resp) (payload resp) []) as H.
    by rewrite app_nil_r, <- app_assoc in H.
  - apply holds_seq.
  - apply NoDup_seq.
  - intros r Hr. apply elem_of_seq in Hr. rewrite length_app in Hr. split.
    + unfold response_rows. rewrite elem_of_seq. lia.
    + apply lookup_ge_None. lia.
  - intros Hempty. apply not_populated_payload in Hempty. by rewrite Hempty.
Qed.

(** C2. When the first status seen is FAILED the call raises the execution
    failure, when it is CANCELED the cancellation error; in both cases the
    outcome is the error alone: no row sequence is returned and no row was
    copied. *)
Theorem C2_failed_or_canceled_raises
    (time_time : list event -> Q) (self : DatabricksMCP) (fuel : nat)
    (sql : string) (w : World) (sid : string)
    (resp : StatementResponse (list value)) :
  submitted self sql w sid ->
  in_window time_time self sql w ->
  first_status self sql w sid resp ->
  let run := execute_sql_query time_time self (S fuel) sql w in
  (state resp = Some FAILED -> run.1 = Raise ExecutionFailure) /\
  (state resp = Some CANCELED -> run.1 = Raise ExecutionCanceled) /\
  (state resp = Some FAILED \/ state resp = Some CANCELED ->
   (forall rows, run.1 <> Return rows) /\
   store run.2 = store w ++ payload resp).
Proof.
  intros Hsub Hwin Hfirst run. subst run.
  rewrite (run_in_window _ _ _ _ _ Hsub Hwin). unfold first_status in Hfirst.
  rewrite Hfirst. cbv zeta.
  split; [by intros ->|]. split; [by intros ->|].
  intros [-> | ->]; by split.
Qed.

(** C3. When the first status seen is none of SUCCEEDED, FAILED, CANCELED
    (a pending or running statement, a closed one, an absent state), the
    call raises the unexpected-state error for that state at once: the
    status request that saw it is the last interaction of the call, and the
    only status request. *)
Theorem C3_other_state_aborts_at_once
    (time_time : list event -> Q) (self : DatabricksMCP) (fuel : nat)
    (sql : string) (w : World) (sid : string)
    (resp : StatementResponse (list value)) :
  submitted self sql w sid ->
  in_window time_time self sql w ->
  first_status self sql w sid resp ->
  state resp <> Some SUCCEEDED ->
  state resp <> Some FAILED ->
  state resp <> Some CANCELED ->
  exists w' : World,
    execute_sql_query time_time self (S fuel) sql w
      = (Raise (UnexpectedState (state resp)), w') /\
    trace w' = one_poll_trace self sql w sid /\
    polls (trace w') = S (polls (trace w)).
Proof.
  intros Hsub Hwin Hfirst Hs Hf Hc.
  rewrite (run_in_window _ _ _ _ _ Hsub Hwin). unfold first_status in Hfirst.
  rewrite Hfirst. cbv zeta.
  eexists. split.
  - by destruct (state resp) as [[]|].
  - split; [reflexivity|apply polls_one_poll_trace].
Qed.

(** C10. Once the submission is accepted and the first loop test passes,
    the loop body runs exactly once whatever the fuel: the call ends with a
    return or a raised error, after one status request and no delay, and
    the error is never the timeout. *)
Theorem C10_loop_body_runs_once
    (time_time : list event -> Q) (self : DatabricksMCP)
    (sql : string) (w : World) (sid : string) :
  submitted self sql w sid ->
  in_window time_time self sql w ->
  exists (o : outcome (list ref)) (w' : World),
    (forall fuel, execute_sql_query time_time self (S fuel) sql w = (o, w')) /\
    ((exists rows, o = Return rows) \/ (exists e, o = Raise e /\ e <> Timeout)) /\
    trace w' = one_poll_trace self sql w sid /\
    polls (trace w') = S (polls (trace w)) /\
    sleeps (trace w') = sleeps (trace w).
Proof.
  intros Hsub Hwin.
  pose proof (run_in_window _ _ _ _ _ Hsub Hwin) as Hrun.
  destruct (statement_execution_get_statement _ _ _) as [resp|msg].
  - cbv zeta in Hrun.
    destruct (state resp) as [[]|]; eexists _, _;
      (split; [exact Hrun|]); cbn [trace];
      (split; [|by rewrite polls_one_poll_trace, sleeps_one_poll_trace]);
      solve [left; eauto | right; eexists; split; [reflexivity|discriminate]].
  - eexists _, _. split; [exact Hrun|]. cbn [trace].
    split; [|by rewrite polls_one_poll_trace, sleeps_one_poll_trace].
    right. eexists; split; [reflexivity|discriminate].
Qed.

(** C4. A statement that the service reports as pending at every status
    request, under a clock that stays inside the window: the call asks once,
    does not wait, and raises the unexpected-state error, not the timeout. *)
Theorem C4_pending_statement_is_not_polled_again (fuel : nat) :
  let run := execute_sql_query Scenario.steady_clock
               (Scenario.databricks Scenario.pending_reply) (S fuel)
               "SELECT 1" Scenario.w0 in
  run.1 = Raise (UnexpectedState (Some PENDING)) /\
  run.1 <> Raise Timeout /\
  polls (trace run.2) = 1%nat /\
  sleeps (trace run.2) = 0%nat.
Proof.
  intros run. subst run. rewrite execute_sql_query_run.
  vm_compute. repeat split. discriminate.
Qed.

(** The timeout is raised when the first loop test already fails; no status
    request is made then. *)
Lemma timeout_without_poll
    (time_time : list event -> Q) (self : DatabricksMCP) (fuel : nat)
    (sql : string) (w : World) (sid : string) :
  submitted self sql w sid ->
  ~ in_window time_time self sql w ->
  execute_sql_query time_time self (S fuel) sql w =
  (Raise Timeout,
   mkWorld (trace w ++ [submit_event self sql; EvTime; EvTime]) (store w)).
Proof.
  intros Hsub Hout. rewrite execute_sql_query_run.
  unfold submitted in Hsub. rewrite Hsub.
  destruct (Qlt_bool _ _) eqn:Htest; [|done].
  apply Qlt_bool_iff in Htest. contradiction.
Qed.

(** Case analysis over everything a run can meet: the submission fails;
    the first test fails; the status request fails; one case per state. *)
Ltac run_cases :=
  rewrite execute_sql_query_run;
  destruct (statement_execution_execute_statement _ _ _ _) as [?sid|?msg];
  [ destruct (Qlt_bool _ _);
    [ destruct (statement_execution_get_statement _ _ _) as [?resp|?msg];
      [ cbv zeta; destruct (state _) as [[]|] | ]
    | ]
  | ].

(** No call makes more than one status request. *)
Lemma at_most_one_poll
    (time_time : list event -> Q) (self : DatabricksMCP) (fuel : nat)
    (sql : string) (w : World) :
  (polls (trace (execute_sql_query time_time self (S fuel) sql w).2)
   <= S (polls (trace w)))%nat.
Proof.
  run_cases; cbn [snd trace];
    first [ by rewrite polls_one_poll_trace | rewrite polls_app; cbn; lia ].
Qed.

(** No call waits. *)
Lemma never_sleeps
    (time_time : list event -> Q) (self : DatabricksMCP) (fuel : nat)
    (sql : string) (w : World) :
  sleeps (trace (execute_sql_query time_time self (S fuel) sql w).2)
  = sleeps (trace w).
Proof.
  run_cases; cbn [snd trace];
    first [ by rewrite sleeps_one_poll_trace | rewrite sleeps_app; cbn; lia ].
Qed.

(** A call neither runs out of fuel nor reads outside the store. *)
Lemma execute_sql_query_total
    (time_time : list event -> Q) (self : DatabricksMCP) (fuel : nat)
    (sql : string) (w : World) :
  (exists rows, (execute_sql_query time_time self (S fuel) sql w).1 = Return rows) \/
  (exists e, (execute_sql_query time_time self (S fuel) sql w).1 = Raise e).
Proof. run_cases; eauto. Qed.

(** One unit of fuel is as good as any larger amount. *)
Lemma fuel_irrelevant
    (time_time : list event -> Q) (self : DatabricksMCP) (fuel : nat)
    (sql : string) (w : World) :
  execute_sql_query time_time self (S fuel) sql w
  = execute_sql_query time_time self 1 sql w.
Proof. by rewrite !execute_sql_query_run. Qed.

(** The first interaction of a call is the submission of its text to the
    warehouse of [self]. *)
Lemma execute_sql_query_submits
    (time_time : list event -> Q) (self : DatabricksMCP) (fuel : nat)
    (sql : string) (w : World) :
  exists rest,
    trace (execute_sql_query time_time self (S fuel) sql w).2
    = trace w ++ EvExecuteStatement (warehouse_id self) sql :: rest.
Proof.
  run_cases; cbn [snd trace]; unfold one_poll_trace, submit_event; eauto.
Qed.

(** The references a call returns name rows of the final store. *)
Lemma execute_sql_query_returns_rows
    (time_time : list event -> Q) (self : DatabricksMCP) (fuel : nat)
    (sql : string) (w w' : World) (refs : list ref) :
  execute_sql_query time_time self (S fuel) sql w = (Return refs, w') ->
  exists rows, holds (store w') refs rows.
Proof.
  run_cases; try done.
  intros [= <- <-]. exists (payload resp). cbn [store].
  pose proof (holds_seq (store w ++ payload resp) (payload resp) []) as H.
  by rewrite app_nil_r, <- app_assoc in H.
Qed.

(** The test's query: two rows come back, in the order of the reply. *)
Example select_returns_two_rows :
  execute_sql_query Scenario.steady_clock
    (Scenario.databricks Scenario.select_reply) 1
    "SELECT * FROM main.test_schema.test_table" Scenario.w0
  = (Return [2%nat; 3%nat],
     mkWorld [EvExecuteStatement "wh-1" "SELECT * FROM main.test_schema.test_table";
              EvTime; EvTime; EvGetStatement "stmt-1"]
             [[VStr "1"; VStr "Alice"]; [VStr "2"; VStr "Bob"];
              [VStr "1"; VStr "Alice"]; [VStr "2"; VStr "Bob"]]).
Proof. reflexivity. Qed.

(** A statement without a result payload. *)
Example ddl_returns_no_rows :
  (execute_sql_query Scenario.steady_clock
     (Scenario.databricks Scenario.ddl_reply) 1
     "CREATE TABLE main.test_schema.test_table (id INT, name STRING)"
     Scenario.w0).1
  = Return [].
Proof. reflexivity. Qed.

(** Under a clock that jumps past the window between the two readings the
    call times out before any status request. *)
Example slow_clock_times_out :
  execute_sql_query Scenario.slow_clock
    (Scenario.databricks Scenario.select_reply) 1 "SELECT 1" Scenario.w0
  = (Raise Timeout,
     mkWorld [EvExecuteStatement "wh-1" "SELECT 1"; EvTime; EvTime] []).
Proof. reflexivity. Qed.

(** *** The theorems of the status loop at the scripted service *)

Lemma C1_witness :
  exists (copies : list ref) (w' : World),
    execute_sql_query Scenario.steady_clock
      (Scenario.databricks Scenario.select_reply) 1
      "SELECT * FROM main.test_schema.test_table" Scenario.w0
    = (Return copies, w') /\
    holds (store w') copies (payload Scenario.select_reply) /\
    holds (store w')
      (response_rows (store Scenario.w0) Scenario.select_reply)
      (payload Scenario.select_reply) /\
    NoDup copies /\
    (forall r, r ∈ copies ->
               (r ∉ response_rows (store Scenario.w0) Scenario.select_reply) /\
               store Scenario.w0 !! r = None) /\
    (~ populated Scenario.select_reply -> copies = []).
Proof.
  apply (C1_succeeded_returns_copied_rows Scenario.steady_clock
           (Scenario.databricks Scenario.select_reply) 0
           "SELECT * FROM main.test_schema.test_table" Scenario.w0 "stmt-1"
           Scenario.select_reply);
    [reflexivity | vm_compute; reflexivity | reflexivity | reflexivity].
Defined.

Lemma C2_witness :
  let run := execute_sql_query Scenario.steady_clock
               (Scenario.databricks Scenario.failed_reply) 1
               "SELECT * FROM missing" Scenario.w0 in
  (state Scenario.failed_reply = Some FAILED -> run.1 = Raise ExecutionFailure) /\
  (state Scenario.failed_reply = Some CANCELED -> run.1 = Raise ExecutionCanceled) /\
  (state Scenario.failed_reply = Some FAILED \/
   state Scenario.failed_reply = Some CANCELED ->
   (forall rows, run.1 <> Return rows) /\
   store run.2 = store Scenario.w0 ++ payload Scenario.failed_reply).
Proof.
  apply (C2_failed_or_canceled_raises Scenario.steady_clock
           (Scenario.databricks Scenario.failed_reply) 0
           "SELECT * FROM missing" Scenario.w0 "stmt-1" Scenario.failed_reply);
    [reflexivity | vm_compute; reflexivity | reflexivity].
Defined.

Lemma C3_witness :
  exists w' : World,
    execute_sql_query Scenario.steady_clock
      (Scenario.databricks Scenario.pending_reply) 1 "SELECT 1" Scenario.w0
    = (Raise (UnexpectedState (state Scenario.pending_reply)), w') /\
    trace w' = one_poll_trace (Scenario.databricks Scenario.pending_reply)
                 "SELECT 1" Scenario.w0 "stmt-1" /\
    polls (trace w') = S (polls (trace Scenario.w0)).
Proof.
  apply (C3_other_state_aborts_at_once Scenario.steady_clock
           (Scenario.databricks Scenario.pending_reply) 0 "SELECT 1"
           Scenario.w0 "stmt-1" Scenario.pending_reply);
    [reflexivity | vm_compute; reflexivity | reflexivity
    | discriminate | discriminate | discriminate].
Defined.

Lemma C10_witness :
  exists (o : outcome (list ref)) (w' : World),
    (forall fuel,
       execute_sql_query Scenario.steady_clock
         (Scenario.databricks Scenario.select_reply) (S fuel)
         "SELECT 1" Scenario.w0 = (o, w')) /\
    ((exists rows, o = Return rows) \/ (exists e, o = Raise e /\ e <> Timeout)) /\
    trace w' = one_poll_trace (Scenario.databricks Scenario.select_reply)
                 "SELECT 1" Scenario.w0 "stmt-1" /\
    polls (trace w') = S (polls (trace Scenario.w0)) /\
    sleeps (trace w') = sleeps (trace Scenario.w0).
Proof.
  apply (C10_loop_body_runs_once Scenario.steady_clock
           (Scenario.databricks Scenario.select_reply) "SELECT 1"
           Scenario.w0 "stmt-1");
    [reflexivity | vm_compute; reflexivity].
Defined.

(** ** Comprehensions that only read *)

Section ForEach.

Context {A B : Type}.
Variable f : A -> M B.
Variable w : World.

(** [f] leaves the world [w] as it is. *)
Hypothesis f_reads : forall x, (f x w).2 = w.

Lemma for_each_reads (xs : list A) : (for_each f xs w).2 = w.
Proof.
  induction xs as [|x xs IH]; [done|].
  cbn [for_each]. unfold bind at 1.
  specialize (f_reads x). destruct (f x w) as [[y| | |] w1]; simpl in *; subst; try done.
  unfold bind. destruct (for_each f xs w) as [[ys| | |] w1]; simpl in *; by subst.
Qed.

Lemma for_each_Return (xs : list A) (ys : list B) :
  for_each f xs w = (Return ys, w) <->
  Forall2 (fun x y => f x w = (Return y, w)) xs ys.
Proof.
  revert ys. induction xs as [|x xs IH]; intros ys.
  - cbn. unfold ret. split.
    + intros [= <-]. constructor.
    + intros H. by inversion H.
  - cbn [for_each]. unfold bind at 1.
    pose proof (f_reads x) as Hx. pose proof (for_each_reads xs) as Hxs.
    destruct (f x w) as [o w1] eqn:Hfx. simpl in Hx. subst w1. unfold bind.
    destruct (for_each f xs w) as [o' w1] eqn:Hfxs. simpl in Hxs. subst w1.
    split.
    + destruct o as [y| | |]; try done.
      destruct o' as [ys'| | |]; try done. unfold ret.
      intros [= <-]. constructor; [done|]. by apply IH.
    + intros H. inversion H as [|? y ? ys' Hy Hrest]; subst.
      rewrite Hfx in Hy. injection Hy as ->.
      apply IH in Hrest. injection Hrest as ->. done.
Qed.

End ForEach.

(** ** [describe_table] *)

Lemma Forall2_through {A B C} (P : A -> B -> Prop) (Q : C -> B -> Prop)
    (R : A -> C -> Prop) (xs : list A) (ys : list B) (zs : list C) :
  (forall x y z, P x y -> Q z y -> R x z) ->
  Forall2 P xs ys -> Forall2 Q zs ys -> Forall2 R xs zs.
Proof.
  intros HR HP. revert zs.
  induction HP as [|x y xs ys Hxy _ IH]; intros zs HQ;
    inversion HQ; subst; constructor; eauto.
Qed.

Section Projections.

Variable upper : string -> string.
Variable w : World.

Lemma column_reads (r : ref) : ((row <- deref r ;; getitem row 0) w).2 = w.
Proof.
  unfold bind, deref, getitem. destruct (store w !! r) as [row|]; [|done].
  by destruct (row !! 0%nat).
Qed.

Lemma column_Return (r : ref) (c : value) :
  (row <- deref r ;; getitem row 0) w = (Return c, w) <->
  exists row, store w !! r = Some row /\ row !! 0%nat = Some c.
Proof.
  unfold bind, deref, getitem. split.
  - destruct (store w !! r) as [row|]; [|done].
    destruct (row !! 0%nat) eqn:H0; [|done].
    unfold ret. intros [= <-]. eauto.
  - intros (row & -> & ->). done.
Qed.

Lemma data_type_reads (r : ref) :
  ((row <- deref r ;; v <- getitem row 1 ;; str_upper upper v) w).2 = w.
Proof.
  unfold bind, deref, getitem. destruct (store w !! r) as [row|]; [|done].
  destruct (row !! 1%nat) as [[]|]; done.
Qed.

Lemma data_type_Return (r : ref) (ty : value) :
  (row <- deref r ;; v <- getitem row 1 ;; str_upper upper v) w = (Return ty, w) <->
  exists row s, store w !! r = Some row /\ row !! 1%nat = Some (VStr s) /\
                ty = VStr (upper s).
Proof.
  unfold bind, deref, getitem. split.
  - destruct (store w !! r) as [row|]; [|done].
    destruct (row !! 1%nat) as [[| | |s|]|] eqn:H1; try done.
    unfold ret, str_upper. intros [= <-]. eauto.
  - intros (row & s & -> & -> & ->). done.
Qed.

(** The rows behind two projections that succeeded on the same
    references. *)
Lemma projected_rows (refs : list ref) (cols tys : list value) :
  Forall2 (fun r c => exists row, store w !! r = Some row /\ row !! 0%nat = Some c)
          refs cols ->
  Forall2 (fun r ty => exists row s, store w !! r = Some row /\
                                     row !! 1%nat = Some (VStr s) /\
                                     ty = VStr (upper s)) refs tys ->
  exists rows,
    holds (store w) refs rows /\
    Forall2 (fun c row => row !! 0%nat = Some c) cols rows /\
    Forall2 (fun ty row => exists s, row !! 1%nat = Some (VStr s) /\
                                     ty = VStr (upper s)) tys rows.
Proof.
  unfold holds. intros Hc. revert tys.
  induction Hc as [|r c refs cols (row & Hr & H0) _ IH]; intros tys Ht;
    inversion Ht as [|? ty ? tys' (row' & s & Hr' & H1 & ->) Hrest]; subst.
  - exists []. repeat constructor.
  - destruct (IH _ Hrest) as (rows & Hrows & Hcols & Htys).
    assert (row' = row) as -> by congruence.
    exists (row :: rows). repeat constructor; eauto.
Qed.

End Projections.

Lemma ascii_upper_char_no_lower (c : ascii) :
  is_lower_char (ascii_upper_char c) = false.
Proof. by destruct c as [[] [] [] [] [] [] [] []]. Qed.

Lemma ascii_upper_no_lower (s : string) : has_lower (ascii_upper s) = false.
Proof.
  induction s as [|c s IH]; [done|].
  cbn [ascii_upper has_lower]. by rewrite ascii_upper_char_no_lower, IH.
Qed.

(** C5. [describe_table] hands the text [DESCRIBE TABLE
    catalog.schema.table] to [execute_sql_query]; when that returns rows
    whose element 1 is a string, the result maps ["columns"] to element 0
    of every row and ["data_types"] to [str.upper] of element 1 of every
    row, both in row order, and the world is the one the query left.  For
    an element 1 of ASCII characters the data type is that text with a to z
    replaced by A to Z: no letter a to z is left in it. *)
Theorem C5_describe_table_projects_rows
    (time_time : list event -> Q) (upper : string -> string)
    (self : DatabricksMCP) (fuel : nat)
    (catalog schema table : string) (w w' : World)
    (refs : list ref) (rows : list (list value)) :
  execute_sql_query time_time self fuel
    ("DESCRIBE TABLE " +:+ catalog +:+ "." +:+ schema +:+ "." +:+ table) w
  = (Return refs, w') ->
  holds (store w') refs rows ->
  Forall (fun row => exists s, row !! 1%nat = Some (VStr s)) rows ->
  exists cols tys : list value,
    describe_table time_time upper self fuel catalog schema table w
    = (Return (<["data_types" := tys]> (<["columns" := cols]> ∅)), w') /\
    Forall2 (fun c row => row !! 0%nat = Some c) cols rows /\
    Forall2 (fun ty row => exists s, row !! 1%nat = Some (VStr s) /\
                                     ty = VStr (upper s)) tys rows /\
    (agrees_on_ascii upper ->
     Forall2 (fun ty row =>
                forall s, row !! 1%nat = Some (VStr s) -> is_ascii s = true ->
                          ty = VStr (ascii_upper s) /\
                          has_lower (ascii_upper s) = false) tys rows).
Proof.
  intros Hquery Hrows Hshape.
  assert (exists cols tys : list value,
            Forall2 (fun c row => row !! 0%nat = Some c) cols rows /\
            Forall2 (fun ty row => exists s, row !! 1%nat = Some (VStr s) /\
                                             ty = VStr (upper s)) tys rows)
    as (cols & tys & Hcols & Htys).
  { clear Hrows. induction Hshape as [|row rows (s & H1) _ (cols & tys & Hc & Ht)].
    - exists [], []. split; constructor.
    - destruct row as [|c [|v row]]; simplify_eq/=.
      exists (c :: cols), (VStr (upper s) :: tys). split; constructor; simpl; eauto. }
  exists cols, tys. split; [|split; [done|split; [done|]]].
  2:{ intros Hascii. eapply Forall2_impl; [exact Htys|].
      intros ty row (s & H1 & ->) s' H1' Hs'.
      assert (s' = s) as -> by congruence.
      rewrite (Hascii _ Hs'). split; [done|apply ascii_upper_no_lower]. }
  unfold describe_table. unfold bind at 1. rewrite Hquery.
  unfold bind at 1.
  rewrite (proj2 (for_each_Return _ w' (column_reads w') refs cols)).
  2:{ eapply Forall2_through; [|exact Hrows|exact Hcols].
      intros r row c Hr H0. apply column_Return. cbv beta in *. eauto. }
  unfold bind at 1.
  rewrite (proj2 (for_each_Return _ w' (data_type_reads upper w') refs tys)).
  2:{ eapply Forall2_through; [|exact Hrows|exact Htys].
      intros r row ty Hr (s & H1 & ->). apply data_type_Return.
      cbv beta in *. eauto. }
  done.
Qed.

(** C6. In every result of [describe_table] the two sequences have the
    length of the query's result, and at every index the column name and
    the data type come from the row at that index. *)
Theorem C6_columns_and_data_types_aligned
    (time_time : list event -> Q) (upper : string -> string)
    (self : DatabricksMCP) (fuel : nat)
    (catalog schema table : string) (w w' : World)
    (d : gmap string (list value)) :
  describe_table time_time upper self fuel catalog schema table w = (Return d, w') ->
  exists (cols tys : list value) (rows : list (list value)),
    d !! "columns" = Some cols /\
    d !! "data_types" = Some tys /\
    length cols = length tys /\
    length cols = length rows /\
    (exists refs,
       execute_sql_query time_time self fuel
         ("DESCRIBE TABLE " +:+ catalog +:+ "." +:+ schema +:+ "." +:+ table) w
       = (Return refs, w') /\
       holds (store w') refs rows) /\
    (forall (i : nat) c ty,
       cols !! i = Some c -> tys !! i = Some ty ->
       exists row s,
         rows !! i = Some row /\ row !! 0%nat = Some c /\
         row !! 1%nat = Some (VStr s) /\ ty = VStr (upper s)).
Proof.
  unfold describe_table. unfold bind at 1.
  destruct (execute_sql_query _ _ _ _ _) as [[refs| | |] w1] eqn:Hquery; try done.
  unfold bind at 1.
  match goal with
  | |- context [for_each ?f refs w1] =>
      pose proof (for_each_reads f w1 (column_reads w1) refs) as Hw2;
      destruct (for_each f refs w1) as [[cols| | |] w2] eqn:Hcols; try done
  end.
  simpl in Hw2. subst w2. unfold bind at 1.
  match goal with
  | |- context [for_each ?f refs w1] =>
      pose proof (for_each_reads f w1 (data_type_reads upper w1) refs) as Hw3;
      destruct (for_each f refs w1) as [[tys| | |] w3] eqn:Htys; try done
  end.
  simpl in Hw3. subst w3. unfold ret. intros [= <- <-].
  apply for_each_Return in Hcols; [|apply column_reads].
  apply for_each_Return in Htys; [|apply data_type_reads].
  destruct (projected_rows upper w1 refs cols tys) as (rows & Hrows & Hc & Ht).
  { eapply Forall2_impl; [exact Hcols|]. intros r c. apply column_Return. }
  { eapply Forall2_impl; [exact Htys|]. intros r ty. apply data_type_Return. }
  exists cols, tys, rows.
  pose proof (Forall2_length _ _ _ Hc) as Hlc.
  pose proof (Forall2_length _ _ _ Ht) as Hlt.
  split; [by rewrite lookup_insert_ne, lookup_insert_eq|].
  split; [by rewrite lookup_insert_eq|].
  split; [congruence|]. split; [done|]. split; [eauto|].
  intros i c ty Hi Hj.
  destruct (Forall2_lookup_l _ _ _ _ _ Hc Hi) as (row & Hrow & H0).
  destruct (Forall2_lookup_l _ _ _ _ _ Ht Hj) as (row' & Hrow' & s & H1 & ->).
  assert (row' = row) as -> by congruence. eauto 8.
Qed.

(** What is not a result of the query is the outcome of
    [describe_table]. *)
Lemma describe_table_propagates
    (time_time : list event -> Q) (upper : string -> string)
    (self : DatabricksMCP) (fuel : nat)
    (catalog schema table : string) (w w' : World)
    (o : outcome (list ref)) :
  execute_sql_query time_time self fuel
    ("DESCRIBE TABLE " +:+ catalog +:+ "." +:+ schema +:+ "." +:+ table) w
  = (o, w') ->
  (forall refs, o <> Return refs) ->
  describe_table time_time upper self fuel catalog schema table w
  = (outcome_map (fun _ => ∅) o, w').
Proof.
  intros Hquery Hnot. unfold describe_table, bind at 1. rewrite Hquery.
  destruct o as [refs| | |]; try done. by destruct (Hnot refs).
Qed.

(** The description the test expects; its texts are ASCII. *)
Example describe_table_test :
  (describe_table Scenario.steady_clock ascii_upper
     (Scenario.databricks Scenario.describe_reply) 1
     "main" "test_schema" "test_table" Scenario.w0).1
  = Return (<["data_types" := [VStr "INT"; VStr "STRING"]]>
              (<["columns" := [VStr "id"; VStr "name"]]> ∅)).
Proof. vm_compute. reflexivity. Qed.

Lemma C5_witness :
  describe_table Scenario.steady_clock ascii_upper
    (Scenario.databricks Scenario.describe_reply) 1
    "main" "test_schema" "test_table" Scenario.w0
  = (Return (<["data_types" := [VStr "INT"; VStr "STRING"]]>
               (<["columns" := [VStr "id"; VStr "name"]]> ∅)),
     Scenario.described).
Proof.
  destruct (C5_describe_table_projects_rows Scenario.steady_clock ascii_upper
              (Scenario.databricks Scenario.describe_reply) 1
              "main" "test_schema" "test_table" Scenario.w0 Scenario.described
              [2%nat; 3%nat] (payload Scenario.describe_reply))
    as (cols & tys & Hrun & Hcols & _ & Hascii).
  - vm_compute. reflexivity.
  - repeat constructor.
  - repeat constructor; eexists; reflexivity.
  - specialize (Hascii (fun s _ => eq_refl)).
    apply Forall2_cons_inv_r in Hcols as (c1 & cols1 & Hc1 & Hcols & ->).
    apply Forall2_cons_inv_r in Hcols as (c2 & cols2 & Hc2 & Hcols & ->).
    apply Forall2_nil_inv_r in Hcols as ->.
    apply Forall2_cons_inv_r in Hascii as (t1 & tys1 & Ht1 & Hascii & ->).
    apply Forall2_cons_inv_r in Hascii as (t2 & tys2 & Ht2 & Hascii & ->).
    apply Forall2_nil_inv_r in Hascii as ->.
    injection Hc1 as <-. injection Hc2 as <-.
    destruct (Ht1 "int" eq_refl eq_refl) as [-> _].
    destruct (Ht2 "string" eq_refl eq_refl) as [-> _].
    exact Hrun.
Defined.

Lemma C6_witness :
  exists (cols tys : list value) (rows : list (list value)),
    (<["data_types" := [VStr "INT"; VStr "STRING"]]>
       (<["columns" := [VStr "id"; VStr "name"]]> ∅) : gmap string (list value))
      !! "columns" = Some cols /\
    (<["data_types" := [VStr "INT"; VStr "STRING"]]>
       (<["columns" := [VStr "id"; VStr "name"]]> ∅) : gmap string (list value))
      !! "data_types" = Some tys /\
    length cols = length tys /\
    length cols = length rows /\
    (exists refs,
       execute_sql_query Scenario.steady_clock
         (Scenario.databricks Scenario.describe_reply) 1
         ("DESCRIBE TABLE " +:+ "main" +:+ "." +:+ "test_schema" +:+ "." +:+ "test_table")
         Scenario.w0
       = (Return refs, Scenario.described) /\
       holds (store Scenario.described) refs rows) /\
    (forall (i : nat) c ty,
       cols !! i = Some c -> tys !! i = Some ty ->
       exists row s,
         rows !! i = Some row /\ row !! 0%nat = Some c /\
         row !! 1%nat = Some (VStr s) /\ ty = VStr (ascii_upper s)).
Proof.
  apply (C6_columns_and_data_types_aligned Scenario.steady_clock ascii_upper
           (Scenario.databricks Scenario.describe_reply) 1
           "main" "test_schema" "test_table" Scenario.w0 Scenario.described).
  vm_compute. reflexivity.
Defined.

(** ** The SQL texts *)

Lemma append_empty_r (s : string) : s +:+ "" = s.
Proof.
  induction s as [|c s IH]; [done|].
  change (String c (s +:+ "") = String c s). by f_equal.
Qed.

Lemma join_comma_space (x : string) (rest : list string) :
  join ", " (x :: rest) = comma_space_list x rest.
Proof.
  unfold comma_space_list. revert x.
  induction rest as [|y rest IH]; intros x.
  - cbn [join fold_right]. by rewrite append_empty_r.
  - change (join ", " (x :: y :: rest)) with (x +:+ ", " +:+ join ", " (y :: rest)).
    by rewrite IH.
Qed.

Lemma outcome_of_discarded {A} (m : M A) (w : World) :
  (_ <- m ;; ret tt) w = (outcome_map (fun _ => tt) (m w).1, (m w).2).
Proof. unfold bind. by destruct (m w) as [[a| | |] w']. Qed.

(** Comprehensions whose steps touch nothing. *)
Lemma for_each_all {A B} (f : A -> M B) (g : A -> B) (xs : list A) (w : World) :
  Forall (fun x => f x w = (Return (g x), w)) xs ->
  for_each f xs w = (Return (map g xs), w).
Proof.
  induction 1 as [|x xs Hx _ IH]; [done|].
  cbn [for_each map]. unfold bind at 1. rewrite Hx.
  unfold bind at 1. by rewrite IH.
Qed.

Lemma for_each_first_error {A B} (f : A -> M B) (pre : list A) (x : A)
    (post : list A) (e : exn) (w : World) :
  Forall (fun x => exists y, f x w = (Return y, w)) pre ->
  f x w = (Raise e, w) ->
  for_each f (pre ++ x :: post) w = (Raise e, w).
Proof.
  intros Hpre Hx. induction Hpre as [|x' pre [y Hy] _ IH].
  - cbn [app for_each]. unfold bind at 1. by rewrite Hx.
  - cbn [app for_each]. unfold bind at 1. rewrite Hy.
    unfold bind at 1. by rewrite IH.
Qed.

Lemma column_defs_run (max_digits : nat) (w : World)
    (columns : list (gmap string value)) (ds : list (string * string)) :
  Forall2 column_definition columns ds ->
  for_each (fun col =>
              n <- dict_getitem col "name" ;;
              n_text <- of_result (py_str max_digits n) ;;
              t <- dict_getitem col "type" ;;
              t_text <- of_result (py_str max_digits t) ;;
              ret (n_text +:+ " " +:+ t_text)) columns w
  = (Return (map rendered_definition ds), w).
Proof.
  induction 1 as [|col [n t] columns ds [Hn Ht] _ IH]; [done|].
  cbn [for_each]. unfold bind at 1. unfold bind at 1, dict_getitem at 1.
  simpl in Hn, Ht. rewrite Hn. unfold ret at 1.
  unfold bind at 1. cbn [py_str of_result]. unfold ret at 1.
  unfold bind at 1, dict_getitem at 1. rewrite Ht. unfold ret at 1.
  unfold bind at 1. cbn [py_str of_result]. unfold ret at 1, ret at 1.
  unfold bind at 1. by rewrite IH.
Qed.

(** C7. For column definitions [(n1,t1), ..., (nk,tk)], [k >= 1],
    [create_table] does what [execute_sql_query] does on the text
    [CREATE TABLE catalog.schema.table (n1 t1, ..., nk tk)] and returns
    nothing; names and types are any strings and enter the text as they
    are. *)
Theorem C7_create_table_statement
    (time_time : list event -> Q) (int_max_str_digits : nat)
    (self : DatabricksMCP) (fuel : nat)
    (catalog schema table : string)
    (col : gmap string value) (cols : list (gmap string value))
    (d : string * string) (ds : list (string * string)) (w : World) :
  Forall2 column_definition (col :: cols) (d :: ds) ->
  create_table time_time int_max_str_digits self fuel catalog schema table
    (col :: cols) w =
  let run :=
    execute_sql_query time_time self fuel
      ("CREATE TABLE " +:+ (catalog +:+ "." +:+ schema +:+ "." +:+ table)
       +:+ " (" +:+ column_list d ds +:+ ")") w in
  (outcome_map (fun _ => tt) run.1, run.2).
Proof.
  intros Hdefs. unfold create_table. unfold bind at 1.
  rewrite (column_defs_run _ w _ _ Hdefs). cbv zeta.
  change (map rendered_definition (d :: ds))
    with (rendered_definition d :: map rendered_definition ds).
  rewrite join_comma_space. fold (column_list d ds).
  apply outcome_of_discarded.
Qed.

Lemma C7_witness :
  create_table Scenario.steady_clock 4300
    (Scenario.databricks Scenario.ddl_reply) 1
    "main" "test_schema" "test_table" Scenario.test_columns Scenario.w0 =
  let run :=
    execute_sql_query Scenario.steady_clock
      (Scenario.databricks Scenario.ddl_reply) 1
      ("CREATE TABLE " +:+ ("main" +:+ "." +:+ "test_schema" +:+ "." +:+ "test_table")
       +:+ " (" +:+ column_list ("id", "INT") [("name", "STRING")] +:+ ")")
      Scenario.w0 in
  (outcome_map (fun _ => tt) run.1, run.2).
Proof.
  apply (C7_create_table_statement Scenario.steady_clock 4300
           (Scenario.databricks Scenario.ddl_reply) 1
           "main" "test_schema" "test_table").
  repeat constructor.
Defined.

(** The text of the test's table creation. *)
Example create_table_test_statement :
  "CREATE TABLE " +:+ ("main" +:+ "." +:+ "test_schema" +:+ "." +:+ "test_table")
  +:+ " (" +:+ column_list ("id", "INT") [("name", "STRING")] +:+ ")"
  = "CREATE TABLE main.test_schema.test_table (id INT, name STRING)".
Proof. reflexivity. Qed.

Section Literals.

Variable max_digits : nat.
Variable w : World.

Lemma py_str_printable (v : value) :
  str_error max_digits v = None ->
  py_str max_digits v = inr (if is_str v then (if v is VStr s then s else "")
                             else literal v).
Proof.
  destruct v as [|[]|n|s|[e|text]]; try done.
  cbn [str_error py_str is_str literal]. unfold str_of_int.
  by destruct (over_limit max_digits n).
Qed.

Lemma py_str_error (v : value) (e : exn) :
  str_error max_digits v = Some e -> py_str max_digits v = inl e.
Proof.
  destruct v as [|[]|n|s|[e'|text]]; try done.
  - cbn [str_error py_str]. unfold str_of_int.
    destruct (over_limit max_digits n); [by intros [= <-]|done].
  - by intros [= <-].
Qed.

Lemma format_value_printable (v : value) :
  str_error max_digits v = None ->
  format_value max_digits v w = (Return (literal v), w).
Proof.
  intros Hv. unfold format_value. rewrite (py_str_printable v Hv).
  by destruct v as [|[]|n|s|[e|text]].
Qed.

Lemma format_value_error (v : value) (e : exn) :
  str_error max_digits v = Some e ->
  format_value max_digits v w = (Raise e, w).
Proof.
  intros Hv. unfold format_value. rewrite (py_str_error v e Hv).
  by destruct v as [|[]|n|s|[e'|text]].
Qed.

(** A row whose values all print. *)
Lemma row_run (row : list value) :
  Forall (fun v => str_error max_digits v = None) row ->
  (texts <- for_each (format_value max_digits) row ;;
   ret ("(" +:+ join ", " texts +:+ ")")) w
  = (Return (row_group row), w).
Proof.
  intros Hrow. unfold bind at 1.
  rewrite (for_each_all _ literal row w).
  2:{ eapply Forall_impl; [exact Hrow|]. intros v. apply format_value_printable. }
  unfold ret, row_group. destruct row as [|v vs]; [done|].
  cbn [map]. by rewrite join_comma_space.
Qed.

(** A row with a value that does not print, behind values that do. *)
Lemma row_error (pre : list value) (v : value) (post : list value) (e : exn) :
  Forall (fun v => str_error max_digits v = None) pre ->
  str_error max_digits v = Some e ->
  (texts <- for_each (format_value max_digits) (pre ++ v :: post) ;;
   ret ("(" +:+ join ", " texts +:+ ")")) w
  = (Raise e, w).
Proof.
  intros Hpre Hv. unfold bind at 1.
  rewrite (for_each_first_error _ pre v post e w); [done| |].
  - eapply Forall_impl; [exact Hpre|]. intros v' Hv'.
    exists (literal v'). by apply format_value_printable.
  - by apply format_value_error.
Qed.

End Literals.

Lemma decimal_reads_back (n : Z) :
  option_map Z.of_int (NilZero.int_of_string (decimal n)) = Some n.
Proof.
  unfold decimal. rewrite NilZero.isi.
  - cbn [option_map]. by rewrite DecimalZ.of_to.
  - destruct n as [|p|p]; try done. cbn. intros [= H].
    by apply DecimalPos.Unsigned.to_uint_nonnil in H.
  - destruct n as [|p|p]; try done. cbn. intros [= H].
    by apply DecimalPos.Unsigned.to_uint_nonnil in H.
Qed.

(** C8. For rows [row1, ..., rowk], [k >= 1], whose values [str] all
    prints, [insert_data] does what [execute_sql_query] does on the text
    [INSERT INTO name VALUES (...), ..., (...)] and returns nothing: one
    parenthesised group per row, the groups and the values of a group
    separated by a comma and a space, a string value between single quotes
    without any change to its characters, any other value as [str] prints
    it; the literal of an int is its decimal numeral, which reads back as
    that int.  When [str] raises on a value (an int of more digits than the
    interpreter's limit, an object whose [str] raises), the first such
    value in the order of the rows ends the call with that exception and
    nothing is submitted. *)
Theorem C8_insert_data_statement
    (time_time : list event -> Q) (int_max_str_digits : nat)
    (self : DatabricksMCP) (fuel : nat)
    (table_full_name : string) (row : list value) (rows : list (list value))
    (w : World) :
  (Forall (Forall (printable int_max_str_digits)) (row :: rows) ->
   insert_data time_time int_max_str_digits self fuel table_full_name
     (row :: rows) w =
   let run :=
     execute_sql_query time_time self fuel
       ("INSERT INTO " +:+ table_full_name +:+ " VALUES " +:+ values_list row rows)
       w in
   (outcome_map (fun _ => tt) run.1, run.2)) /\
  (forall before pre v post after e,
     row :: rows = before ++ (pre ++ v :: post) :: after ->
     Forall (Forall (printable int_max_str_digits)) before ->
     Forall (printable int_max_str_digits) pre ->
     str_error int_max_str_digits v = Some e ->
     insert_data time_time int_max_str_digits self fuel table_full_name
       (row :: rows) w = (Raise e, w)) /\
  (forall n : Z,
     option_map Z.of_int (NilZero.int_of_string (literal (VInt n))) = Some n).
Proof.
  split; [|split].
  - intros Hrows. unfold insert_data. unfold bind at 1.
    rewrite (for_each_all _ row_group (row :: rows) w).
    2:{ eapply Forall_impl; [exact Hrows|]. intros r Hr. by apply row_run. }
    cbv zeta. cbn [map]. rewrite join_comma_space.
    fold (values_list row rows). apply outcome_of_discarded.
  - intros before pre v post after e -> Hbefore Hpre Hv.
    unfold insert_data. unfold bind at 1.
    rewrite (for_each_first_error _ before (pre ++ v :: post) after e w); [done| |].
    + eapply Forall_impl; [exact Hbefore|]. intros r Hr.
      exists (row_group r). by apply row_run.
    + by apply row_error.
  - intros n. apply decimal_reads_back.
Qed.

(** The test's insertion: the text that is submitted. *)
Lemma C8_witness :
  insert_data Scenario.steady_clock 4300
    (Scenario.databricks Scenario.ddl_reply) 1 "main.s.t"
    [[VInt 1; VStr "Alice"]; [VInt 2; VStr "Bob"]] Scenario.w0 =
  let run :=
    execute_sql_query Scenario.steady_clock
      (Scenario.databricks Scenario.ddl_reply) 1
      "INSERT INTO main.s.t VALUES (1, 'Alice'), (2, 'Bob')" Scenario.w0 in
  (outcome_map (fun _ => tt) run.1, run.2).
Proof.
  apply (C8_insert_data_statement Scenario.steady_clock 4300
           (Scenario.databricks Scenario.ddl_reply) 1 "main.s.t"
           [VInt 1; VStr "Alice"] [[VInt 2; VStr "Bob"]] Scenario.w0).
  repeat constructor.
Defined.

(** An int of 4301 digits under the limit of 4300: [insert_data] raises and
    submits nothing, where the statement with the numeral would be
    submitted. *)
Lemma C8_counterexample :
  insert_data Scenario.steady_clock 4300
    (Scenario.databricks Scenario.ddl_reply) 1 "main.s.t"
    [[VInt Faults.huge]] Scenario.w0
  = (Raise (IntDigitsError 4300), Scenario.w0) /\
  insert_data Scenario.steady_clock 4300
    (Scenario.databricks Scenario.ddl_reply) 1 "main.s.t"
    [[VInt Faults.huge]] Scenario.w0
  <> (let run :=
        execute_sql_query Scenario.steady_clock
          (Scenario.databricks Scenario.ddl_reply) 1
          ("INSERT INTO " +:+ "main.s.t" +:+ " VALUES "
           +:+ values_list [VInt Faults.huge] []) Scenario.w0 in
      (outcome_map (fun _ => tt) run.1, run.2)).
Proof.
  assert (Hover : over_limit 4300 Faults.huge = true) by (vm_compute; reflexivity).
  assert (Hrun : insert_data Scenario.steady_clock 4300
                   (Scenario.databricks Scenario.ddl_reply) 1 "main.s.t"
                   [[VInt Faults.huge]] Scenario.w0
                 = (Raise (IntDigitsError 4300), Scenario.w0)).
  { unfold insert_data. unfold bind at 1. cbn [for_each]. unfold bind at 1 2 3.
    cbn [for_each]. unfold bind at 1. unfold format_value at 1.
    cbn [is_str py_str of_result]. unfold str_of_int. by rewrite Hover. }
  split; [exact Hrun|].
  rewrite Hrun. cbv zeta. rewrite execute_sql_query_run.
  cbn [Scenario.databricks Scenario.scripted client warehouse_id
       statement_execution_execute_statement].
  destruct (Qlt_bool _ _); [|by intros [= _ Htrace]].
  cbn [statement_execution_get_statement Scenario.ddl_reply state].
  cbv zeta. by intros [=].
Qed.

(** The text of the test's insertion, and a string with a quote in it. *)
Example insert_data_test_statement :
  "INSERT INTO " +:+ "main.s.t" +:+ " VALUES "
  +:+ values_list [VInt 1; VStr "Alice"] [[VInt 2; VStr "Bob"]]
  = "INSERT INTO main.s.t VALUES (1, 'Alice'), (2, 'Bob')".
Proof. reflexivity. Qed.

Example insert_data_quote_statement :
  values_list [VInt (-7); VStr "O'Brien"; VNone; VBool true;
               VObject (inr "1.5")] []
  = "(-7, 'O'Brien', None, True, 1.5)".
Proof. reflexivity. Qed.

(** ** Metadata listings *)

(** C9. Each listing makes its one remote call and returns the [name] of
    every record of the answer, in the order of the answer; an error of the
    remote call is the error of the listing. *)
Theorem C9_listings_project_names
    (self : DatabricksMCP) (w : World) (catalog schema : string) :
  (forall records,
     catalogs_list (client self) (trace w) = Ok records ->
     list_catalogs self w =
     (Return (map catalog_info_name records),
      mkWorld (trace w ++ [EvCatalogsList]) (store w))) /\
  (forall records,
     schemas_list (client self) (trace w) catalog = Ok records ->
     list_schemas self catalog w =
     (Return (map schema_info_name records),
      mkWorld (trace w ++ [EvSchemasList catalog]) (store w))) /\
  (forall records,
     tables_list (client self) (trace w) catalog schema = Ok records ->
     list_tables self catalog schema w =
     (Return (map table_info_name records),
      mkWorld (trace w ++ [EvTablesList catalog schema]) (store w))) /\
  (forall msg,
     catalogs_list (client self) (trace w) = Fails msg ->
     (list_catalogs self w).1 = Raise (RemoteError msg)) /\
  (forall msg,
     schemas_list (client self) (trace w) catalog = Fails msg ->
     (list_schemas self catalog w).1 = Raise (RemoteError msg)) /\
  (forall msg,
     tables_list (client self) (trace w) catalog schema = Fails msg ->
     (list_tables self catalog schema w).1 = Raise (RemoteError msg)).
Proof.
  unfold list_catalogs, list_schemas, list_tables, bind, history, emit, of_reply.
  cbn [trace store].
  split; [|split; [|split; [|split; [|split]]]]; intros x Hx; by rewrite Hx.
Qed.

Lemma C9_witness :
  list_catalogs (Scenario.databricks Scenario.ddl_reply) Scenario.w0 =
  (Return (map catalog_info_name
             [mkCatalogInfo "main" None;
              mkCatalogInfo "hive_metastore" (Some "legacy")]),
   mkWorld (trace Scenario.w0 ++ [EvCatalogsList]) (store Scenario.w0)) /\
  (list_tables (mkDatabricksMCP Scenario.unreachable "wh-1")
     "main" "test_schema" Scenario.w0).1 = Raise (RemoteError "connection refused").
Proof.
  split.
  - apply (C9_listings_project_names (Scenario.databricks Scenario.ddl_reply)
             Scenario.w0 "main" "test_schema"). reflexivity.
  - apply (C9_listings_project_names (mkDatabricksMCP Scenario.unreachable "wh-1")
             Scenario.w0 "main" "test_schema"). reflexivity.
Defined.

(** A listing has the length of the answer and its order. *)
Lemma listing_positions {A} (field : A -> string) (records : list A) (i : nat) :
  length (map field records) = length records /\
  map field records !! i = field <$> records !! i.
Proof. split; [apply length_map|apply list_lookup_fmap]. Qed.

(* ===================================================================== *)
(** * Further properties of the code *)
(* ===================================================================== *)

(** ** [execute_sql_query]: errors, effects, termination *)

Lemma submissions_app (h l : list event) :
  submissions (h ++ l) = (submissions h + submissions l)%nat.
Proof. unfold submissions. by rewrite List.filter_app, length_app. Qed.

Lemma clock_reads_app (h l : list event) :
  clock_reads (h ++ l) = (clock_reads h + clock_reads l)%nat.
Proof. unfold clock_reads. by rewrite List.filter_app, length_app. Qed.

(** When the submission fails, its error is the error of the call, for any
    fuel: the clock is not read and no status is requested. *)
Theorem submission_error_ends_the_call
    (time_time : list event -> Q) (self : DatabricksMCP) (fuel : nat)
    (sql : string) (w : World) (msg : string) :
  statement_execution_execute_statement
    (client self) (trace w) (warehouse_id self) sql = Fails msg ->
  execute_sql_query time_time self fuel sql w =
  (Raise (RemoteError msg),
   mkWorld (trace w ++ [EvExecuteStatement (warehouse_id self) sql]) (store w)).
Proof.
  intros Hfails.
  unfold execute_sql_query, bind at 1.
  unfold execute_statement, bind at 1, history, bind at 1, emit, of_reply.
  cbn [trace store]. by rewrite Hfails.
Qed.

Lemma submission_error_ends_the_call_witness :
  execute_sql_query Scenario.steady_clock
    (mkDatabricksMCP Scenario.unreachable "wh-1") 0 "SELECT 1" Scenario.w0 =
  (Raise (RemoteError "connection refused"),
   mkWorld (trace Scenario.w0 ++ [EvExecuteStatement "wh-1" "SELECT 1"])
           (store Scenario.w0)).
Proof.
  apply (submission_error_ends_the_call Scenario.steady_clock
           (mkDatabricksMCP Scenario.unreachable "wh-1") 0 "SELECT 1" Scenario.w0
           "connection refused").
  reflexivity.
Defined.

(** When the status request fails, its error is the error of the call; the
    request is not repeated and the store is as before. *)
Theorem status_error_ends_the_call
    (time_time : list event -> Q) (self : DatabricksMCP) (fuel : nat)
    (sql : string) (w : World) (sid msg : string) :
  submitted self sql w sid ->
  in_window time_time self sql w ->
  statement_execution_get_statement (client self)
    (trace w ++ [submit_event self sql; EvTime; EvTime]) sid = Fails msg ->
  execute_sql_query time_time self (S fuel) sql w =
  (Raise (RemoteError msg), mkWorld (one_poll_trace self sql w sid) (store w)).
Proof.
  intros Hsub Hwin Hfails.
  rewrite (run_in_window _ _ _ _ _ Hsub Hwin). by rewrite Hfails.
Qed.

Lemma status_error_ends_the_call_witness :
  execute_sql_query Scenario.steady_clock
    (mkDatabricksMCP Faults.flaky "wh-1") 1 "SELECT 1" Scenario.w0 =
  (Raise (RemoteError "503 Service Unavailable"),
   mkWorld (one_poll_trace (mkDatabricksMCP Faults.flaky "wh-1") "SELECT 1"
              Scenario.w0 "stmt-1")
           (store Scenario.w0)).
Proof.
  apply (status_error_ends_the_call Scenario.steady_clock
           (mkDatabricksMCP Faults.flaky "wh-1") 0 "SELECT 1" Scenario.w0
           "stmt-1" "503 Service Unavailable");
    [reflexivity | vm_compute; reflexivity | reflexivity].
Defined.

(** Once the submission is accepted, the call ends in the timeout error
    exactly when the first loop test fails, that is when the second clock
    reading is 60 or more after the first; no status is requested then. *)
Theorem timeout_exactly_when_first_test_fails
    (time_time : list event -> Q) (self : DatabricksMCP) (fuel : nat)
    (sql : string) (w : World) (sid : string) :
  submitted self sql w sid ->
  let run := execute_sql_query time_time self (S fuel) sql w in
  (run.1 = Raise Timeout <-> ~ in_window time_time self sql w) /\
  (run.1 = Raise Timeout -> polls (trace run.2) = polls (trace w)).
Proof.
  intros Hsub run. subst run.
  destruct (Qlt_bool (first_test_reading time_time self sql w
                      - start_reading time_time self sql w) timeout) eqn:Htest.
  - assert (Hwin : in_window time_time self sql w) by by apply Qlt_bool_iff.
    assert (Hnot : (execute_sql_query time_time self (S fuel) sql w).1
                   <> Raise Timeout).
    { rewrite (run_in_window _ _ _ _ _ Hsub Hwin).
      destruct (statement_execution_get_statement _ _ _) as [resp|msg]; [|done].
      cbv zeta. by destruct (state resp) as [[]|]. }
    split; [split|]; intros; contradiction.
  - assert (Hout : ~ in_window time_time self sql w).
    { intros Hwin. apply Qlt_bool_iff in Hwin. unfold in_window in *. congruence. }
    rewrite (timeout_without_poll _ _ _ _ _ _ Hsub Hout). cbn [fst snd trace].
    split; [done|]. intros _. rewrite polls_app. cbn. lia.
Qed.

Lemma timeout_exactly_when_first_test_fails_witness :
  let run := execute_sql_query Scenario.slow_clock
               (Scenario.databricks Scenario.select_reply) 1 "SELECT 1"
               Scenario.w0 in
  (run.1 = Raise Timeout <->
   ~ in_window Scenario.slow_clock (Scenario.databricks Scenario.select_reply)
       "SELECT 1" Scenario.w0) /\
  (run.1 = Raise Timeout -> polls (trace run.2) = polls (trace Scenario.w0)).
Proof.
  apply (timeout_exactly_when_first_test_fails Scenario.slow_clock
           (Scenario.databricks Scenario.select_reply) 0 "SELECT 1"
           Scenario.w0 "stmt-1").
  reflexivity.
Defined.

(** Whatever the service and the clock do, a call submits its statement
    exactly once, asks for the status at most once, reads the clock at most
    twice and never waits. *)
Theorem effects_of_a_call
    (time_time : list event -> Q) (self : DatabricksMCP) (fuel : nat)
    (sql : string) (w : World) :
  let h' := trace (execute_sql_query time_time self (S fuel) sql w).2 in
  submissions h' = S (submissions (trace w)) /\
  (polls h' <= S (polls (trace w)))%nat /\
  (clock_reads h' <= 2 + clock_reads (trace w))%nat /\
  sleeps h' = sleeps (trace w).
Proof.
  cbv zeta. run_cases; cbn [snd trace]; unfold one_poll_trace;
    rewrite submissions_app, polls_app, clock_reads_app, sleeps_app; cbn; lia.
Qed.

(** Whatever the service and the clock do, a call with one unit of fuel or
    more ends with a return or a raised exception, and the amount of fuel
    does not change its result: the loop never comes to a second test. *)
Theorem one_pass_suffices
    (time_time : list event -> Q) (self : DatabricksMCP) (fuel : nat)
    (sql : string) (w : World) :
  execute_sql_query time_time self (S fuel) sql w
  = execute_sql_query time_time self 1 sql w /\
  ((exists rows, (execute_sql_query time_time self 1 sql w).1 = Return rows) \/
   (exists e, (execute_sql_query time_time self 1 sql w).1 = Raise e)).
Proof.
  split; [by rewrite !execute_sql_query_run|]. run_cases; eauto.
Qed.

(** A call changes no list object that existed before it and removes
    nothing from the history: the old store and the old trace are prefixes
    of the new ones. *)
Theorem a_call_only_adds
    (time_time : list event -> Q) (self : DatabricksMCP) (fuel : nat)
    (sql : string) (w : World) :
  let w' := (execute_sql_query time_time self (S fuel) sql w).2 in
  trace w `prefix_of` trace w' /\
  store w `prefix_of` store w' /\
  (forall r row, store w !! r = Some row -> store w' !! r = Some row).
Proof.
  cbv zeta.
  assert (Hstore : store w `prefix_of`
                   store (execute_sql_query time_time self (S fuel) sql w).2).
  { run_cases; cbn [snd store];
      first [ done | by apply prefix_app_r | by eexists ]. }
  split; [|split; [done|]].
  - run_cases; cbn [snd trace]; unfold one_poll_trace; by eexists.
  - intros r row Hr. destruct Hstore as [extra ->]. by apply lookup_app_l_Some.
Qed.

(** The unexpected-state error names the state it met: two states give the
    same error only when they are the same state. *)
Theorem unexpected_state_names_the_state (s1 s2 : option StatementState) :
  UnexpectedState s1 = UnexpectedState s2 -> s1 = s2.
Proof. by destruct s1 as [[]|], s2 as [[]|]. Qed.

Lemma unexpected_state_names_the_state_witness :
  Some PENDING = Some PENDING.
Proof.
  apply (unexpected_state_names_the_state (Some PENDING) (Some PENDING)).
  reflexivity.
Defined.

(** ** [describe_table]: what it returns and how it fails *)

Lemma comprehension_inr {A B} (f : A -> exn + B) (xs : list A) (ys : list B) :
  comprehension f xs = inr ys <-> Forall2 (fun x y => f x = inr y) xs ys.
Proof.
  revert ys. induction xs as [|x xs IH]; intros ys; cbn [comprehension].
  - split; [intros [= <-]; constructor | by inversion 1].
  - destruct (f x) as [e|y] eqn:Hx.
    + split; [done|]. inversion 1; congruence.
    + destruct (comprehension f xs) as [e|ys'] eqn:Hxs.
      * split; [done|]. inversion 1 as [|? ? ? ys'' _ Hrest]; subst.
        apply IH in Hrest. done.
      * split.
        -- intros [= <-]. constructor; [done|]. by apply IH.
        -- inversion 1 as [|? y' ? ys'' Hy Hrest]; subst.
           apply IH in Hrest. congruence.
Qed.

Lemma comprehension_inl {A B} (f : A -> exn + B) (xs : list A) (e : exn) :
  comprehension f xs = inl e -> exists x, x ∈ xs /\ f x = inl e.
Proof.
  induction xs as [|x xs IH]; cbn [comprehension]; [done|].
  destruct (f x) as [e'|y] eqn:Hx.
  - intros [= <-]. exists x. split; [left|done].
  - destruct (comprehension f xs) as [e'|ys]; [|done].
    intros [= <-]. destruct IH as (x' & Hin & Hx'); [done|].
    exists x'. split; [by right|done].
Qed.

Lemma comprehension_all {A B} (f : A -> exn + B) (xs : list A) :
  Forall (fun x => exists y, f x = inr y) xs ->
  exists ys, comprehension f xs = inr ys.
Proof.
  induction 1 as [|x xs [y Hy] _ [ys Hys]]; cbn [comprehension]; [by eexists|].
  rewrite Hy, Hys. by eexists.
Qed.

(** A comprehension that reads rows through their references is the
    comprehension on the rows. *)
Lemma for_each_comprehension {B} (f : ref -> M B) (g : list value -> exn + B)
    (w : World) (refs : list ref) (rows : list (list value)) :
  (forall r row, store w !! r = Some row -> f r w = (outcome_of (g row), w)) ->
  holds (store w) refs rows ->
  for_each f refs w = (outcome_of (comprehension g rows), w).
Proof.
  intros Hf. unfold holds.
  induction 1 as [|r row refs rows Hr _ IH]; [done|].
  cbn [for_each comprehension]. unfold bind at 1. rewrite (Hf _ _ Hr).
  destruct (g row) as [e|y]; [done|]. cbn [outcome_of].
  unfold bind at 1. rewrite IH.
  by destruct (comprehension g rows).
Qed.

Lemma column_step (w : World) (r : ref) (row : list value) :
  store w !! r = Some row ->
  (row <- deref r ;; getitem row 0) w = (outcome_of (element0 row), w).
Proof.
  intros Hr. unfold bind, deref, getitem, element0. rewrite Hr.
  by destruct (row !! 0%nat).
Qed.

Lemma data_type_step (upper : string -> string) (w : World) (r : ref)
    (row : list value) :
  store w !! r = Some row ->
  (row <- deref r ;; v <- getitem row 1 ;; str_upper upper v) w
  = (outcome_of (upper_element1 upper row), w).
Proof.
  intros Hr. unfold bind, deref, getitem, upper_element1. rewrite Hr.
  by destruct (row !! 1%nat) as [[]|].
Qed.

(** [describe_table] after its query, on the rows the query returned. *)
Lemma describe_table_run
    (time_time : list event -> Q) (upper : string -> string)
    (self : DatabricksMCP) (fuel : nat)
    (catalog schema table : string) (w w' : World)
    (refs : list ref) (rows : list (list value)) :
  execute_sql_query time_time self fuel
    ("DESCRIBE TABLE " +:+ catalog +:+ "." +:+ schema +:+ "." +:+ table) w
  = (Return refs, w') ->
  holds (store w') refs rows ->
  describe_table time_time upper self fuel catalog schema table w
  = (outcome_of (description upper rows), w').
Proof.
  intros Hquery Hrows. unfold describe_table, bind at 1. rewrite Hquery.
  unfold bind at 1.
  rewrite (for_each_comprehension _ element0 w' refs rows (column_step w') Hrows).
  unfold description. destruct (comprehension element0 rows) as [e|cols]; [done|].
  cbn [outcome_of]. unfold bind at 1.
  rewrite (for_each_comprehension _ (upper_element1 upper) w' refs rows
             (data_type_step upper w') Hrows).
  by destruct (comprehension (upper_element1 upper) rows).
Qed.

Lemma element0_error (row : list value) (e : exn) :
  element0 row = inl e -> e = IndexError /\ row = [].
Proof. unfold element0. destruct row; [by intros [= <-]|done]. Qed.

Lemma upper_element1_error (upper : string -> string) (row : list value)
    (e : exn) :
  upper_element1 upper row = inl e ->
  ~ typed_row row /\
  (row !! 1%nat = None /\ e = IndexError \/
   is_Some (row !! 1%nat) /\ e = AttributeError "upper").
Proof.
  unfold upper_element1, typed_row.
  destruct (row !! 1%nat) as [[]|]; try done; intros [= <-];
    (split; [by intros [s [=]] | eauto]).
Qed.

Lemma upper_element1_typed (upper : string -> string) (row : list value)
    (ty : value) :
  upper_element1 upper row = inr ty -> typed_row row.
Proof.
  unfold upper_element1, typed_row.
  destruct (row !! 1%nat) as [[]|]; try done. eauto.
Qed.

(** What [describe_table] does with the rows of its query: it returns when
    every row has a string at index 1; when some row has none it raises
    [IndexError] or [AttributeError] and returns nothing.  In both cases the
    world is the one the query left. *)
Theorem describe_table_returns_iff_rows_typed
    (time_time : list event -> Q) (upper : string -> string)
    (self : DatabricksMCP) (fuel : nat)
    (catalog schema table : string) (w w' : World)
    (refs : list ref) (rows : list (list value)) :
  execute_sql_query time_time self fuel
    ("DESCRIBE TABLE " +:+ catalog +:+ "." +:+ schema +:+ "." +:+ table) w
  = (Return refs, w') ->
  holds (store w') refs rows ->
  (Forall typed_row rows /\
   exists d, describe_table time_time upper self fuel catalog schema table w
             = (Return d, w')) \/
  (~ Forall typed_row rows /\
   exists e, describe_table time_time upper self fuel catalog schema table w
             = (Raise e, w') /\
             (e = IndexError \/ e = AttributeError "upper")).
Proof.
  intros Hquery Hrows. rewrite (describe_table_run _ _ _ _ _ _ _ _ _ _ _ Hquery Hrows).
  unfold description.
  destruct (comprehension element0 rows) as [e|cols] eqn:Hcols.
  { right. apply comprehension_inl in Hcols as (row & Hin & Hrow).
    apply element0_error in Hrow as [-> ->]. split; [|eauto].
    intros Hall. rewrite Forall_forall in Hall. by destruct (Hall _ Hin). }
  destruct (comprehension (upper_element1 upper) rows) as [e|tys] eqn:Htys.
  - right. apply comprehension_inl in Htys as (row & Hin & Hrow).
    apply upper_element1_error in Hrow as [Hnot Herr]. split.
    + intros Hall. rewrite Forall_forall in Hall. by apply Hnot, Hall.
    + exists e. split; [done|]. destruct Herr as [[_ ->]|[_ ->]]; eauto.
  - left. split; [|by eexists].
    apply comprehension_inr in Htys. apply Forall_forall. intros row Hin.
    apply list_elem_of_lookup in Hin as [i Hi].
    destruct (Forall2_lookup_l _ _ _ _ _ Htys Hi) as (ty & _ & Hty).
    by eapply upper_element1_typed.
Qed.

Lemma describe_table_returns_iff_rows_typed_witness :
  (Forall typed_row (payload Faults.null_type_reply) /\
   exists d, describe_table Scenario.steady_clock ascii_upper
               (Scenario.databricks Faults.null_type_reply) 1
               "main" "test_schema" "test_table" Scenario.w0
             = (Return d,
                mkWorld [EvExecuteStatement "wh-1" Scenario.describe_sql; EvTime;
                         EvTime; EvGetStatement "stmt-1"]
                        (payload Faults.null_type_reply
                         ++ payload Faults.null_type_reply))) \/
  (~ Forall typed_row (payload Faults.null_type_reply) /\
   exists e, describe_table Scenario.steady_clock ascii_upper
               (Scenario.databricks Faults.null_type_reply) 1
               "main" "test_schema" "test_table" Scenario.w0
             = (Raise e,
                mkWorld [EvExecuteStatement "wh-1" Scenario.describe_sql; EvTime;
                         EvTime; EvGetStatement "stmt-1"]
                        (payload Faults.null_type_reply
                         ++ payload Faults.null_type_reply)) /\
             (e = IndexError \/ e = AttributeError "upper")).
Proof.
  apply (describe_table_returns_iff_rows_typed Scenario.steady_clock ascii_upper
           (Scenario.databricks Faults.null_type_reply) 1
           "main" "test_schema" "test_table" Scenario.w0 _ [2%nat; 3%nat]).
  - vm_compute. reflexivity.
  - repeat constructor.
Defined.

(** Which error: an empty row anywhere in the result gives [IndexError],
    whatever the other rows hold, since the names are read from every row
    before any type; when every row has an element 1 and one of them is not
    a string (a null, say), the error is [AttributeError]. *)
Theorem describe_table_error_of_malformed_rows
    (time_time : list event -> Q) (upper : string -> string)
    (self : DatabricksMCP) (fuel : nat)
    (catalog schema table : string) (w w' : World)
    (refs : list ref) (rows : list (list value)) :
  execute_sql_query time_time self fuel
    ("DESCRIBE TABLE " +:+ catalog +:+ "." +:+ schema +:+ "." +:+ table) w
  = (Return refs, w') ->
  holds (store w') refs rows ->
  ([] ∈ rows ->
   describe_table time_time upper self fuel catalog schema table w
   = (Raise IndexError, w')) /\
  (Forall (fun row => is_Some (row !! 1%nat)) rows ->
   ~ Forall typed_row rows ->
   describe_table time_time upper self fuel catalog schema table w
   = (Raise (AttributeError "upper"), w')).
Proof.
  intros Hquery Hrows. rewrite (describe_table_run _ _ _ _ _ _ _ _ _ _ _ Hquery Hrows).
  unfold description. split.
  - intros Hin.
    destruct (comprehension element0 rows) as [e|cols] eqn:Hcols.
    + apply comprehension_inl in Hcols as (row & _ & Hrow).
      by apply element0_error in Hrow as [-> _].
    + apply comprehension_inr in Hcols.
      apply list_elem_of_lookup in Hin as [i Hi].
      by destruct (Forall2_lookup_l _ _ _ _ _ Hcols Hi) as (c & _ & Hc).
  - intros Hall Hnot.
    destruct (comprehension_all element0 rows) as [cols ->].
    { eapply Forall_impl; [exact Hall|]. intros [|c row] [v Hv]; [done|].
      by eexists. }
    destruct (comprehension (upper_element1 upper) rows) as [e|tys] eqn:Htys.
    + apply comprehension_inl in Htys as (row & Hin & Hrow).
      apply upper_element1_error in Hrow as [_ [[Hnone _]|[_ ->]]]; [|done].
      rewrite Forall_forall in Hall. destruct (Hall _ Hin) as [v Hv]. congruence.
    + destruct Hnot. apply comprehension_inr in Htys.
      apply Forall_forall. intros row Hin.
      apply list_elem_of_lookup in Hin as [i Hi].
      destruct (Forall2_lookup_l _ _ _ _ _ Htys Hi) as (ty & _ & Hty).
      by eapply upper_element1_typed.
Qed.

Lemma describe_table_error_of_malformed_rows_witness :
  describe_table Scenario.steady_clock ascii_upper
    (Scenario.databricks Faults.short_row_reply) 1
    "main" "test_schema" "test_table" Scenario.w0
  = (Raise IndexError,
     mkWorld [EvExecuteStatement "wh-1" Scenario.describe_sql; EvTime; EvTime;
              EvGetStatement "stmt-1"]
             (payload Faults.short_row_reply ++ payload Faults.short_row_reply)) /\
  describe_table Scenario.steady_clock ascii_upper
    (Scenario.databricks Faults.null_type_reply) 1
    "main" "test_schema" "test_table" Scenario.w0
  = (Raise (AttributeError "upper"),
     mkWorld [EvExecuteStatement "wh-1" Scenario.describe_sql; EvTime; EvTime;
              EvGetStatement "stmt-1"]
             (payload Faults.null_type_reply ++ payload Faults.null_type_reply)).
Proof.
  split.
  - apply (describe_table_error_of_malformed_rows Scenario.steady_clock ascii_upper
             (Scenario.databricks Faults.short_row_reply) 1
             "main" "test_schema" "test_table" Scenario.w0 _
             [3%nat; 4%nat; 5%nat] (payload Faults.short_row_reply)).
    + vm_compute. reflexivity.
    + repeat constructor.
    + right. left.
  - apply (describe_table_error_of_malformed_rows Scenario.steady_clock ascii_upper
             (Scenario.databricks Faults.null_type_reply) 1
             "main" "test_schema" "test_table" Scenario.w0 _
             [2%nat; 3%nat] (payload Faults.null_type_reply)).
    + vm_compute. reflexivity.
    + repeat constructor.
    + repeat constructor; by eexists.
    + intros Hall. inversion Hall as [|? ? _ Hrest]; subst.
      inversion Hrest as [|? ? [s Hs] _]; subst. discriminate Hs.
Defined.

(** From the reply of the service to the description: with the submission
    accepted, the first test passed and the first status SUCCEEDED, the
    result of [describe_table] is the two comprehensions of lines 83 and 84
    over the rows of the reply, in their order. *)
Theorem describe_table_of_reply
    (time_time : list event -> Q) (upper : string -> string)
    (self : DatabricksMCP) (fuel : nat)
    (catalog schema table : string) (w : World) (sid : string)
    (resp : StatementResponse (list value)) :
  let sql := "DESCRIBE TABLE " +:+ catalog +:+ "." +:+ schema +:+ "." +:+ table in
  submitted self sql w sid ->
  in_window time_time self sql w ->
  first_status self sql w sid resp ->
  state resp = Some SUCCEEDED ->
  describe_table time_time upper self (S fuel) catalog schema table w
  = (outcome_of (description upper (payload resp)),
     mkWorld (one_poll_trace self sql w sid)
             (store w ++ payload resp ++ payload resp)).
Proof.
  intros sql Hsub Hwin Hfirst Hstate.
  apply (describe_table_run _ _ _ _ _ _ _ _ _
           (seq (length (store w ++ payload resp)) (length (payload resp)))).
  - fold sql. rewrite (run_in_window _ _ _ _ _ Hsub Hwin).
    unfold first_status in Hfirst. rewrite Hfirst. cbv zeta. by rewrite Hstate.
  - cbn [store].
    pose proof (holds_seq (store w ++ payload resp) (payload resp) []) as H.
    by rewrite app_nil_r, <- app_assoc in H.
Qed.

Lemma describe_table_of_reply_witness :
  describe_table Scenario.steady_clock ascii_upper
    (Scenario.databricks Scenario.describe_reply) 1
    "main" "test_schema" "test_table" Scenario.w0
  = (outcome_of (description ascii_upper (payload Scenario.describe_reply)),
     mkWorld (one_poll_trace (Scenario.databricks Scenario.describe_reply)
                ("DESCRIBE TABLE " +:+ "main" +:+ "." +:+ "test_schema" +:+ "."
                 +:+ "test_table") Scenario.w0 "stmt-1")
             (store Scenario.w0 ++ payload Scenario.describe_reply
              ++ payload Scenario.describe_reply)).
Proof.
  apply (describe_table_of_reply Scenario.steady_clock ascii_upper
           (Scenario.databricks Scenario.describe_reply) 0
           "main" "test_schema" "test_table" Scenario.w0 "stmt-1"
           Scenario.describe_reply);
    [reflexivity | vm_compute; reflexivity | reflexivity | reflexivity].
Defined.

(** A success without rows (no result, no data array, an empty one) is
    described by two empty lists; it is not an error. *)
Theorem describe_table_without_rows
    (time_time : list event -> Q) (upper : string -> string)
    (self : DatabricksMCP) (fuel : nat)
    (catalog schema table : string) (w : World) (sid : string)
    (resp : StatementResponse (list value)) :
  let sql := "DESCRIBE TABLE " +:+ catalog +:+ "." +:+ schema +:+ "." +:+ table in
  submitted self sql w sid ->
  in_window time_time self sql w ->
  first_status self sql w sid resp ->
  state resp = Some SUCCEEDED ->
  ~ populated resp ->
  describe_table time_time upper self (S fuel) catalog schema table w
  = (Return (<["data_types" := []]> (<["columns" := []]> ∅)),
     mkWorld (one_poll_trace self sql w sid) (store w)).
Proof.
  intros sql Hsub Hwin Hfirst Hstate Hempty.
  apply not_populated_payload in Hempty.
  apply (describe_table_run _ _ _ _ _ _ _ _ _ [] []); [|constructor].
  fold sql. rewrite (run_in_window _ _ _ _ _ Hsub Hwin).
  unfold first_status in Hfirst. rewrite Hfirst. cbv zeta.
  by rewrite Hstate, Hempty, !app_nil_r.
Qed.

Lemma describe_table_without_rows_witness :
  describe_table Scenario.steady_clock ascii_upper
    (Scenario.databricks Scenario.ddl_reply) 1
    "main" "test_schema" "test_table" Scenario.w0
  = (Return (<["data_types" := []]> (<["columns" := []]> ∅)),
     mkWorld (one_poll_trace (Scenario.databricks Scenario.ddl_reply)
                ("DESCRIBE TABLE " +:+ "main" +:+ "." +:+ "test_schema" +:+ "."
                 +:+ "test_table") Scenario.w0 "stmt-1")
             (store Scenario.w0)).
Proof.
  apply (describe_table_without_rows Scenario.steady_clock ascii_upper
           (Scenario.databricks Scenario.ddl_reply) 0
           "main" "test_schema" "test_table" Scenario.w0 "stmt-1"
           Scenario.ddl_reply);
    [reflexivity | vm_compute; reflexivity | reflexivity | reflexivity |].
  intros (rd & row & rows & Hres & _). discriminate Hres.
Defined.

(** When every row of the query has a text of ASCII characters at index
    1, and [str.upper] does on such texts what it is known to do, every
    data type of the description is a text without a letter a to z, one per
    row. *)
Theorem data_types_are_upper_case
    (time_time : list event -> Q) (upper : string -> string)
    (self : DatabricksMCP) (fuel : nat)
    (catalog schema table : string) (w w' : World)
    (refs : list ref) (rows : list (list value)) :
  agrees_on_ascii upper ->
  execute_sql_query time_time self fuel
    ("DESCRIBE TABLE " +:+ catalog +:+ "." +:+ schema +:+ "." +:+ table) w
  = (Return refs, w') ->
  holds (store w') refs rows ->
  Forall (fun row => exists s, row !! 1%nat = Some (VStr s) /\ is_ascii s = true)
         rows ->
  exists (d : gmap string (list value)) (tys : list value),
    describe_table time_time upper self fuel catalog schema table w
    = (Return d, w') /\
    d !! "data_types" = Some tys /\
    length tys = length rows /\
    Forall (fun ty => exists s, ty = VStr s /\ has_lower s = false) tys.
Proof.
  intros Hascii Hquery Hrows Hall.
  rewrite (describe_table_run _ _ _ _ _ _ _ _ _ _ _ Hquery Hrows).
  unfold description.
  destruct (comprehension_all element0 rows) as [cols ->].
  { eapply Forall_impl; [exact Hall|].
    intros [|c row] (s & Hs & _); [done|]. by eexists. }
  assert (exists tys,
            comprehension (upper_element1 upper) rows = inr tys /\
            length tys = length rows /\
            Forall (fun ty => exists s, ty = VStr s /\ has_lower s = false) tys)
    as (tys & -> & Hlen & Htys).
  { clear Hrows. induction Hall as [|row rows (s & Hs & Hsa) _ IH].
    - exists []. by repeat split.
    - destruct IH as (tys & Hc & Hlen & Htys).
      exists (VStr (upper s) :: tys). cbn [comprehension].
      unfold upper_element1 at 1. rewrite Hs, Hc.
      split; [done|]. split; [by cbn; f_equal|].
      constructor; [|done]. exists (upper s). split; [done|].
      rewrite (Hascii _ Hsa). apply ascii_upper_no_lower. }
  eexists _, tys. split; [reflexivity|].
  split; [by rewrite lookup_insert_eq|]. by split.
Qed.

Lemma data_types_are_upper_case_witness :
  exists (d : gmap string (list value)) (tys : list value),
    describe_table Scenario.steady_clock ascii_upper
      (Scenario.databricks Scenario.describe_reply) 1
      "main" "test_schema" "test_table" Scenario.w0
    = (Return d, Scenario.described) /\
    d !! "data_types" = Some tys /\
    length tys = length (payload Scenario.describe_reply) /\
    Forall (fun ty => exists s, ty = VStr s /\ has_lower s = false) tys.
Proof.
  apply (data_types_are_upper_case Scenario.steady_clock ascii_upper
           (Scenario.databricks Scenario.describe_reply) 1
           "main" "test_schema" "test_table" Scenario.w0 Scenario.described
           [2%nat; 3%nat] (payload Scenario.describe_reply)).
  - intros s _. reflexivity.
  - vm_compute. reflexivity.
  - repeat constructor.
  - repeat constructor; eexists; split; reflexivity.
Defined.

(** [describe_table] adds no interaction and no object to those of its
    query, whether the projection of the rows succeeds or fails; when the
    query does not return, its outcome is the outcome of
    [describe_table]. *)
Theorem describe_table_adds_no_effect
    (time_time : list event -> Q) (upper : string -> string)
    (self : DatabricksMCP) (fuel : nat)
    (catalog schema table : string) (w : World) :
  let query :=
    execute_sql_query time_time self fuel
      ("DESCRIBE TABLE " +:+ catalog +:+ "." +:+ schema +:+ "." +:+ table) w in
  let run := describe_table time_time upper self fuel catalog schema table w in
  run.2 = query.2 /\
  ((forall refs, query.1 <> Return refs) ->
   run.1 = outcome_map (fun _ => ∅) query.1).
Proof.
  cbv zeta.
  destruct (execute_sql_query _ _ _ _ _) as [o w1] eqn:Hquery. cbn [fst snd].
  split.
  - unfold describe_table, bind at 1. rewrite Hquery.
    destruct o as [refs| | |]; try done.
    unfold bind at 1.
    match goal with
    | |- context [for_each ?f refs w1] =>
        pose proof (for_each_reads f w1 (column_reads w1) refs) as Hw2;
        destruct (for_each f refs w1) as [[cols| | |] w2]; try done
    end.
    simpl in Hw2. subst w2. unfold bind at 1.
    match goal with
    | |- context [for_each ?f refs w1] =>
        pose proof (for_each_reads f w1 (data_type_reads upper w1) refs) as Hw3;
        by destruct (for_each f refs w1) as [[tys'| | |] w3]
    end.
  - intros Hnot. by rewrite (describe_table_propagates _ _ _ _ _ _ _ _ _ _ Hquery Hnot).
Qed.

(** ** [create_table] and [insert_data]: missing keys, empty input, quotes *)

Lemma append_assoc (s1 s2 s3 : string) : (s1 +:+ s2) +:+ s3 = s1 +:+ s2 +:+ s3.
Proof.
  induction s1 as [|c s1 IH]; [done|].
  change (String c ((s1 +:+ s2) +:+ s3) = String c (s1 +:+ s2 +:+ s3)).
  by f_equal.
Qed.

Section ColumnDefs.

Variable max_digits : nat.
Variable w : World.

Lemma printable_py_str (v : value) :
  printable max_digits v -> exists text, py_str max_digits v = inr text.
Proof. intros Hv. rewrite (py_str_printable _ _ Hv). by eexists. Qed.

Lemma column_def_missing (col : gmap string value) (k : string) :
  missing_key col = Some k ->
  (forall n, col !! "name" = Some n -> printable max_digits n) ->
  (n <- dict_getitem col "name" ;;
   n_text <- of_result (py_str max_digits n) ;;
   t <- dict_getitem col "type" ;;
   t_text <- of_result (py_str max_digits t) ;;
   ret (n_text +:+ " " +:+ t_text)) w = (Raise (KeyError k), w).
Proof.
  unfold missing_key. intros Hk Hname. unfold bind at 1, dict_getitem at 1.
  destruct (col !! "name") as [n|]; [|by injection Hk as <-].
  destruct (printable_py_str n (Hname n eq_refl)) as [text Htext].
  unfold ret at 1, bind at 1. rewrite Htext. cbn [of_result]. unfold ret at 1.
  unfold bind at 1, dict_getitem at 1.
  destruct (col !! "type") as [t|]; [done|by injection Hk as <-].
Qed.

Lemma column_def_complete (col : gmap string value) :
  complete_column max_digits col ->
  exists text,
    (n <- dict_getitem col "name" ;;
     n_text <- of_result (py_str max_digits n) ;;
     t <- dict_getitem col "type" ;;
     t_text <- of_result (py_str max_digits t) ;;
     ret (n_text +:+ " " +:+ t_text)) w = (Return text, w).
Proof.
  intros (n & t & Hn & Ht & Hpn & Hpt).
  destruct (printable_py_str n Hpn) as [n_text Hn_text].
  destruct (printable_py_str t Hpt) as [t_text Ht_text].
  unfold bind, dict_getitem. rewrite Hn. unfold ret at 1. rewrite Hn_text.
  cbn [of_result]. unfold ret at 1. rewrite Ht. unfold ret at 1.
  rewrite Ht_text. cbn [of_result]. by eexists.
Qed.

End ColumnDefs.

(** A column dictionary without ["name"], or with a name that [str] prints
    and without ["type"], makes [create_table] raise the [KeyError] of that
    key, when the dictionaries before it have a name and a type that [str]
    prints; nothing has been sent to the service then: the world is as
    before the call. *)
Theorem create_table_missing_key
    (time_time : list event -> Q) (int_max_str_digits : nat)
    (self : DatabricksMCP) (fuel : nat)
    (catalog schema table : string)
    (complete : list (gmap string value)) (col : gmap string value)
    (rest : list (gmap string value)) (k : string) (w : World) :
  Forall (complete_column int_max_str_digits) complete ->
  missing_key col = Some k ->
  (forall n, col !! "name" = Some n -> printable int_max_str_digits n) ->
  create_table time_time int_max_str_digits self fuel catalog schema table
    (complete ++ col :: rest) w
  = (Raise (KeyError k), w).
Proof.
  intros Hcomplete Hcol Hname. unfold create_table, bind at 1.
  rewrite (for_each_first_error _ complete col rest (KeyError k) w); [done| |].
  - eapply Forall_impl; [exact Hcomplete|]. intros c. apply column_def_complete.
  - by apply column_def_missing.
Qed.

Lemma create_table_missing_key_witness :
  create_table Scenario.steady_clock 4300
    (Scenario.databricks Scenario.ddl_reply) 1
    "main" "test_schema" "test_table" Faults.columns_without_type Scenario.w0
  = (Raise (KeyError "type"), Scenario.w0).
Proof.
  apply (create_table_missing_key Scenario.steady_clock 4300
           (Scenario.databricks Scenario.ddl_reply) 1
           "main" "test_schema" "test_table"
           [ <["type" := VStr "INT"]> (<["name" := VStr "id"]> ∅) ]
           (<["name" := VStr "name"]> ∅) [] "type" Scenario.w0).
  - repeat constructor. exists (VStr "id"), (VStr "INT"). by repeat split.
  - reflexivity.
  - intros n [= <-]. reflexivity.
Defined.

(** A name is formatted before the type is looked up: a name that [str]
    does not print is the error, though the type is missing too. *)
Example unprintable_name_before_missing_type :
  create_table Scenario.steady_clock 4300
    (Scenario.databricks Scenario.ddl_reply) 1
    "main" "test_schema" "test_table"
    [ <["name" := VObject (inl (Exception "no text"))]> ∅ ] Scenario.w0
  = (Raise (Exception "no text"), Scenario.w0).
Proof. reflexivity. Qed.

(** Empty input is not refused: without column definitions [create_table]
    submits [CREATE TABLE catalog.schema.table ()], and without rows
    [insert_data] submits [INSERT INTO name VALUES ] with nothing behind. *)
Theorem empty_input_is_submitted
    (time_time : list event -> Q) (int_max_str_digits : nat)
    (self : DatabricksMCP) (fuel : nat)
    (catalog schema table table_full_name : string) (w : World) :
  create_table time_time int_max_str_digits self fuel catalog schema table [] w
  = (let run :=
       execute_sql_query time_time self fuel
         ("CREATE TABLE " +:+ (catalog +:+ "." +:+ schema +:+ "." +:+ table)
          +:+ " ()") w in
     (outcome_map (fun _ => tt) run.1, run.2)) /\
  insert_data time_time int_max_str_digits self fuel table_full_name [] w
  = (let run :=
       execute_sql_query time_time self fuel
         ("INSERT INTO " +:+ table_full_name +:+ " VALUES ") w in
     (outcome_map (fun _ => tt) run.1, run.2)).
Proof.
  split.
  - unfold create_table, bind at 1. cbn [for_each]. unfold ret at 1.
    cbv zeta. apply outcome_of_discarded.
  - unfold insert_data. cbv zeta. apply outcome_of_discarded.
Qed.

Lemma quoted_pair_text (s t : string) (rest : list string) :
  comma_space_list ("'" +:+ (s +:+ "', '" +:+ t) +:+ "'") rest
  = comma_space_list ("'" +:+ s +:+ "'") (("'" +:+ t +:+ "'") :: rest).
Proof.
  unfold comma_space_list. cbn [fold_right].
  rewrite !append_assoc. reflexivity.
Qed.

Lemma bind_eq {A B} (m1 m2 : M A) (k : A -> M B) (w : World) :
  m1 w = m2 w -> (x <- m1 ;; k x) w = (x <- m2 ;; k x) w.
Proof. intros H. unfold bind. by rewrite H. Qed.

Lemma for_each_head_eq {A B} (f : A -> M B) (x1 x2 : A) (xs : list A)
    (w : World) :
  f x1 w = f x2 w -> for_each f (x1 :: xs) w = for_each f (x2 :: xs) w.
Proof. intros H. cbn [for_each]. by apply bind_eq. Qed.

Lemma for_each_cons_Return {A B} (f : A -> M B) (x : A) (y : B)
    (xs : list A) (w : World) :
  f x w = (Return y, w) ->
  for_each f (x :: xs) w
  = (outcome_map (cons y) (for_each f xs w).1, (for_each f xs w).2).
Proof.
  intros H. cbn [for_each]. unfold bind at 1. rewrite H. unfold bind.
  by destruct (for_each f xs w) as [[ys| | |] w'].
Qed.

Lemma format_value_str (max_digits : nat) (s : string) (w : World) :
  format_value max_digits (VStr s) w = (Return ("'" +:+ s +:+ "'"), w).
Proof. reflexivity. Qed.

(** A string value is not escaped, so the text does not tell a quote
    inside a value from the end of the value: one string holding [', ']
    gives the same statement as two strings. *)
Theorem quotes_in_values_are_not_escaped
    (time_time : list event -> Q) (int_max_str_digits : nat)
    (self : DatabricksMCP) (fuel : nat)
    (table_full_name s t : string) (vs : list value)
    (rows : list (list value)) (w : World) :
  insert_data time_time int_max_str_digits self fuel table_full_name
    ((VStr (s +:+ "', '" +:+ t) :: vs) :: rows) w
  = insert_data time_time int_max_str_digits self fuel table_full_name
      ((VStr s :: VStr t :: vs) :: rows) w.
Proof.
  unfold insert_data. apply bind_eq. apply for_each_head_eq.
  unfold bind at 1 2.
  rewrite (for_each_cons_Return _ _ _ vs w (format_value_str _ _ w)).
  rewrite (for_each_cons_Return _ _ _ (VStr t :: vs) w (format_value_str _ _ w)).
  rewrite (for_each_cons_Return _ _ _ vs w (format_value_str _ _ w)).
  destruct (for_each (format_value int_max_str_digits) vs w) as [[texts| | |] w'];
    try done.
  cbn [fst snd outcome_map]. unfold ret.
  by rewrite !join_comma_space, quoted_pair_text.
Qed.

(** ** The metadata operations and the start of the module *)

(** The three listings and [create_schema] make their one remote call and
    nothing else, whether it succeeds or fails: no statement is submitted to
    the warehouse, no status is requested, the clock is not read and the
    store is untouched.  [create_schema] passes the schema as [name] and the
    catalog as [catalog_name]. *)
Theorem metadata_operations_make_one_call
    (self : DatabricksMCP) (w : World) (catalog schema : string) :
  (list_catalogs self w).2 = mkWorld (trace w ++ [EvCatalogsList]) (store w) /\
  (list_schemas self catalog w).2
  = mkWorld (trace w ++ [EvSchemasList catalog]) (store w) /\
  (list_tables self catalog schema w).2
  = mkWorld (trace w ++ [EvTablesList catalog schema]) (store w) /\
  create_schema self catalog schema w
  = (match schemas_create (client self) (trace w) schema catalog with
     | Ok _ => Return tt
     | Fails msg => Raise (RemoteError msg)
     end,
     mkWorld (trace w ++ [EvSchemasCreate schema catalog]) (store w)).
Proof.
  unfold list_catalogs, list_schemas, list_tables, create_schema,
    bind, history, emit, of_reply.
  cbn [trace store].
  split; [|split; [|split]].
  - by destruct (catalogs_list _ _).
  - by destruct (schemas_list _ _ _).
  - by destruct (tables_list _ _ _ _).
  - by destruct (schemas_create _ _ _ _) as [[]|].
Qed.

Section StartupProperties.

Variable WorkspaceClient_new : string -> string -> WorkspaceClient.

Lemma truthy_iff (o : option string) :
  truthy o = true <-> exists s, o = Some s /\ s <> "".
Proof.
  destruct o as [[|c s]|]; cbn; split; try done.
  - by intros (s & [= <-] & H).
  - intros _. by eexists.
  - by intros (s & [=] & _).
Qed.

(** The module starts exactly when the three variables are set to
    non-empty strings; the client is then built from the host and the
    token, and the warehouse is the one of the third variable.  A variable
    that is absent or set to the empty string ends the start with the
    [ValueError]. *)
Theorem main_module_starts_iff_configured
    (environ : gmap string string) (databricks : DatabricksMCP) :
  (main_module WorkspaceClient_new environ = Started databricks <->
   exists host token warehouse,
     environ !! "DATABRICKS_HOST" = Some host /\ host <> "" /\
     environ !! "DATABRICKS_TOKEN" = Some token /\ token <> "" /\
     environ !! "DATABRICKS_WAREHOUSE_ID" = Some warehouse /\ warehouse <> "" /\
     databricks = mkDatabricksMCP (WorkspaceClient_new host token) warehouse) /\
  ((exists msg, main_module WorkspaceClient_new environ = ValueError msg) <->
   ~ (truthy (environ !! "DATABRICKS_HOST") = true /\
      truthy (environ !! "DATABRICKS_TOKEN") = true /\
      truthy (environ !! "DATABRICKS_WAREHOUSE_ID") = true)).
Proof.
  unfold main_module, py_all. cbn [forallb id].
  destruct (truthy (environ !! "DATABRICKS_HOST")) eqn:Hh;
    destruct (truthy (environ !! "DATABRICKS_TOKEN")) eqn:Ht;
    destruct (truthy (environ !! "DATABRICKS_WAREHOUSE_ID")) eqn:Hw;
    cbn [andb negb].
  1:{ apply truthy_iff in Hh as (h & Hh & Hh').
      apply truthy_iff in Ht as (t & Ht & Ht').
      apply truthy_iff in Hw as (wh & Hw & Hw').
      rewrite Hh, Ht, Hw. unfold DatabricksMCP_init, the_str. cbn [default].
      split; [split|split].
      - intros [= <-]. by exists h, t, wh.
      - intros (h' & t' & wh' & [= <-] & _ & [= <-] & _ & [= <-] & _ & ->). done.
      - by intros [msg [=]].
      - intros H. by destruct H. }
  all: (split; [split; [done|] | split; [by intros _ (? & ? & ?) | by eexists]]).
  all: intros (h & t & wh & Hh' & Hhn & Ht' & Htn & Hw' & Hwn & _).
  all: assert (truthy (Some h) = true /\ truthy (Some t) = true /\
               truthy (Some wh) = true)
         as (? & ? & ?) by (repeat split; apply truthy_iff; eauto).
  all: congruence.
Qed.

End StartupProperties.

Lemma main_module_starts_iff_configured_witness :
  main_module (fun _ _ => Scenario.unreachable) Faults.environ
  = Started (mkDatabricksMCP Scenario.unreachable "wh-1").
Proof.
  apply (main_module_starts_iff_configured (fun _ _ => Scenario.unreachable)
           Faults.environ (mkDatabricksMCP Scenario.unreachable "wh-1")).
  exists "https://example.cloud.databricks.com", "dapi-secret", "wh-1".
  repeat split; discriminate.
Defined.

(** A variable set to the empty string counts as missing. *)
Example empty_token_is_missing :
  main_module (fun _ _ => Scenario.unreachable)
    (<["DATABRICKS_TOKEN" := ""]> Faults.environ)
  = ValueError "Missing required environment variables: DATABRICKS_HOST, DATABRICKS_TOKEN, DATABRICKS_WAREHOUSE_ID".
Proof. vm_compute. reflexivity. Qed.
